(** * Cloud Agent MCP server: transport engine and call gate

    A shallow embedding of [index.js] (the [request] helper, [noKeyError] and
    the nine tool handlers) together with the pieces of the JavaScript
    platform the code relies on: UTF-16 strings, [encodeURIComponent],
    [JSON.parse], property access and string conversion of parsed values,
    the WHATWG URL record read by [request], and the life cycle of an
    [http.ClientRequest]. *)

From Stdlib Require Import List NArith ZArith String Ascii Bool Lia.
Import ListNotations.
Local Open Scope N_scope.
Set Warnings "-register-all".

(** ** JavaScript strings

    A JavaScript string is a sequence of UTF-16 code units.  [lit] embeds an
    ASCII literal of the source. *)

Module JS.

Definition JSString := list N.

Definition lit (s : string) : JSString :=
  List.map N_of_ascii (list_ascii_of_string s).

Definition str_eqb (a b : JSString) : bool :=
  if list_eq_dec N.eq_dec a b then true else false.

(** [String.prototype.slice(0, n)] on code units. *)
Definition slice0 (n : nat) (s : JSString) : JSString := firstn n s.

(** A non-empty string is truthy. *)
Definition str_truthy (s : JSString) : bool :=
  match s with [] => false | _ :: _ => true end.

(** Decimal rendering of a non-negative integer, as a template literal
    renders an integral Number. *)
Fixpoint dec_digits (fuel : nat) (n : N) (acc : JSString) : JSString :=
  match fuel with
  | O => acc
  | S fuel' =>
      let acc' := (48 + n mod 10) :: acc in
      if n / 10 =? 0 then acc' else dec_digits fuel' (n / 10) acc'
  end.

Definition dec (n : N) : JSString := dec_digits (S (N.to_nat (N.log2 n))) n [].

(** *** Character classes *)

Definition in_range (lo hi c : N) : bool := (lo <=? c) && (c <=? hi).
Definition is_digit (c : N) : bool := in_range 48 57 c.
Definition is_upper (c : N) : bool := in_range 65 90 c.
Definition is_lower (c : N) : bool := in_range 97 122 c.
Definition is_alpha (c : N) : bool := is_upper c || is_lower c.
Definition is_alnum (c : N) : bool := is_alpha c || is_digit c.

Definition mem (c : N) (s : JSString) : bool := existsb (N.eqb c) s.

(** The white space and line terminator code units of ECMAScript (what
    [String.prototype.trim] removes). *)
Definition is_whitespace (c : N) : bool :=
  mem c [9; 10; 11; 12; 13; 32; 160; 5760; 8232; 8233; 8239; 8287; 12288; 65279]
  || in_range 8192 8202 c.

Definition is_high_surrogate (c : N) : bool := in_range 55296 56319 c.
Definition is_low_surrogate (c : N) : bool := in_range 56320 57343 c.

(** *** UTF-8 and percent escapes *)

Definition utf8_encode (cp : N) : list N :=
  if cp <? 128 then [cp]
  else if cp <? 2048 then
    [N.lor 192 (N.shiftr cp 6); N.lor 128 (N.land cp 63)]
  else if cp <? 65536 then
    [N.lor 224 (N.shiftr cp 12);
     N.lor 128 (N.land (N.shiftr cp 6) 63);
     N.lor 128 (N.land cp 63)]
  else
    [N.lor 240 (N.shiftr cp 18);
     N.lor 128 (N.land (N.shiftr cp 12) 63);
     N.lor 128 (N.land (N.shiftr cp 6) 63);
     N.lor 128 (N.land cp 63)].

(** Upper-case hexadecimal digit of a value below 16. *)
Definition hex_digit (d : N) : N := if d <? 10 then 48 + d else 55 + d.

Definition percent_byte (b : N) : JSString :=
  [37; hex_digit (b / 16 mod 16); hex_digit (b mod 16)].

Definition percent_bytes (bs : list N) : JSString :=
  flat_map percent_byte bs.

(** *** encodeURIComponent

    The abstract operation Encode of ECMA-262 with the unescaped set of
    [encodeURIComponent]: ASCII letters, digits and [-_.!~*'()].  [None]
    stands for the URIError thrown on an unpaired surrogate. *)

Definition uri_unescaped (c : N) : bool :=
  is_alnum c || mem c (lit "-_.!~*'()").

Fixpoint encodeURIComponent (s : JSString) : option JSString :=
  match s with
  | [] => Some []
  | c :: rest =>
      if uri_unescaped c then option_map (cons c) (encodeURIComponent rest)
      else if is_low_surrogate c then None
      else if is_high_surrogate c then
        match rest with
        | d :: rest' =>
            if is_low_surrogate d then
              let cp := 65536 + (c - 55296) * 1024 + (d - 56320) in
              option_map (app (percent_bytes (utf8_encode cp)))
                         (encodeURIComponent rest')
            else None
        | [] => None
        end
      else option_map (app (percent_bytes (utf8_encode c)))
                      (encodeURIComponent rest)
  end.


(** ** JavaScript values

    The values a parsed JSON text or a validated tool argument can be.  A
    Number read from a JSON text is kept as the exact decimal it was written
    as, [(-1)^neg * mant * 10^exp10]; the double it denotes is its rounding
    to nearest, ties to even. *)

Record JSNumber := { neg : bool; mant : N; exp10 : Z }.

Inductive JSValue :=
| VUndefined
| VNull
| VBool (b : bool)
| VNumber (n : JSNumber)
| VString (s : JSString)
| VArray (elems : list JSValue)
| VObject (props : list (JSString * JSValue)).

Definition num_of_N (n : N) : JSNumber := {| neg := false; mant := n; exp10 := 0 |}.

(** The double nearest to a positive decimal is zero exactly when the decimal
    is at most [2^-1075], half the smallest subnormal. *)
Definition number_is_zero (n : JSNumber) : bool :=
  (mant n =? 0)
  || ((exp10 n <? 0)%Z && (mant n * 2 ^ 1075 <=? 10 ^ Z.to_N (- exp10 n))).

(** ToBoolean. *)
Definition truthy (v : JSValue) : bool :=
  match v with
  | VUndefined | VNull => false
  | VBool b => b
  | VNumber n => negb (number_is_zero n)
  | VString s => str_truthy s
  | VArray _ | VObject _ => true
  end.

(** [a || b]. *)
Definition js_or (a b : JSValue) : JSValue := if truthy a then a else b.

(** Own data properties of an object, in creation order.  [obj_set] is
    CreateDataProperty: an existing key keeps its place and takes the new
    value. *)
Fixpoint obj_get (k : JSString) (props : list (JSString * JSValue)) : option JSValue :=
  match props with
  | [] => None
  | (k', v) :: rest => if str_eqb k k' then Some v else obj_get k rest
  end.

Fixpoint obj_set (k : JSString) (v : JSValue) (props : list (JSString * JSValue))
  : list (JSString * JSValue) :=
  match props with
  | [] => [(k, v)]
  | (k', v') :: rest =>
      if str_eqb k k' then (k, v) :: rest else (k', v') :: obj_set k v rest
  end.

Definition obj_has (k : JSString) (props : list (JSString * JSValue)) : bool :=
  match obj_get k props with Some _ => true | None => false end.

(** ** JSON.parse

    The JSON grammar of ECMA-404 as [JSON.parse] reads it: a tokenizer that
    consumes one code unit at a time, and a stack machine over the tokens.
    [None] stands for the SyntaxError. *)

Inductive Token :=
| TLBrace | TRBrace | TLBracket | TRBracket | TColon | TComma
| TScalar (v : JSValue)
| TStr (s : JSString).

Inductive NumPhase := NMinus | NZero | NInt | NDot | NFrac | NE | NESign | NExp.

Record NumAcc :=
  { n_neg : bool; n_mant : N; n_scale : N; n_eneg : bool; n_exp : N }.

Inductive LexState :=
| LStart
| LWord (rest : JSString) (t : Token)
| LStr (acc : JSString)
| LEsc (acc : JSString)
| LUni (k : nat) (v : N) (acc : JSString)
| LNum (p : NumPhase) (a : NumAcc).

Definition json_ws (c : N) : bool := mem c [9; 10; 13; 32].

Definition num_accepting (p : NumPhase) : bool :=
  match p with NZero | NInt | NFrac | NExp => true | _ => false end.

Definition num_finish (a : NumAcc) : JSNumber :=
  {| neg := n_neg a;
     mant := n_mant a;
     exp10 := ((if n_eneg a then - Z.of_N (n_exp a) else Z.of_N (n_exp a))
               - Z.of_N (n_scale a))%Z |}.

Definition num_start (negative : bool) (d : N) : NumAcc :=
  {| n_neg := negative; n_mant := d; n_scale := 0; n_eneg := false; n_exp := 0 |}.

Definition num_step (p : NumPhase) (a : NumAcc) (c : N) : option (NumPhase * NumAcc) :=
  let d := c - 48 in
  let int_digit := {| n_neg := n_neg a; n_mant := n_mant a * 10 + d;
                      n_scale := n_scale a; n_eneg := n_eneg a; n_exp := n_exp a |} in
  let frac_digit := {| n_neg := n_neg a; n_mant := n_mant a * 10 + d;
                       n_scale := n_scale a + 1; n_eneg := n_eneg a; n_exp := n_exp a |} in
  let exp_digit := {| n_neg := n_neg a; n_mant := n_mant a;
                      n_scale := n_scale a; n_eneg := n_eneg a; n_exp := n_exp a * 10 + d |} in
  let exp_minus := {| n_neg := n_neg a; n_mant := n_mant a;
                      n_scale := n_scale a; n_eneg := true; n_exp := n_exp a |} in
  let is_e := mem c (lit "eE") in
  match p with
  | NMinus => if c =? 48 then Some (NZero, a)
              else if in_range 49 57 c then Some (NInt, int_digit) else None
  | NZero => if c =? 46 then Some (NDot, a)
             else if is_e then Some (NE, a) else None
  | NInt => if is_digit c then Some (NInt, int_digit)
            else if c =? 46 then Some (NDot, a)
            else if is_e then Some (NE, a) else None
  | NDot => if is_digit c then Some (NFrac, frac_digit) else None
  | NFrac => if is_digit c then Some (NFrac, frac_digit)
             else if is_e then Some (NE, a) else None
  | NE => if is_digit c then Some (NExp, exp_digit)
          else if c =? 43 then Some (NESign, a)
          else if c =? 45 then Some (NESign, exp_minus) else None
  | NESign => if is_digit c then Some (NExp, exp_digit) else None
  | NExp => if is_digit c then Some (NExp, exp_digit) else None
  end.

Definition hex_value (c : N) : option N :=
  if is_digit c then Some (c - 48)
  else if in_range 65 70 c then Some (c - 55)
  else if in_range 97 102 c then Some (c - 87)
  else None.

Definition lex_start (c : N) : option (list Token * LexState) :=
  if json_ws c then Some ([], LStart)
  else if c =? 123 then Some ([TLBrace], LStart)
  else if c =? 125 then Some ([TRBrace], LStart)
  else if c =? 91 then Some ([TLBracket], LStart)
  else if c =? 93 then Some ([TRBracket], LStart)
  else if c =? 58 then Some ([TColon], LStart)
  else if c =? 44 then Some ([TComma], LStart)
  else if c =? 34 then Some ([], LStr [])
  else if c =? 110 then Some ([], LWord (lit "ull") (TScalar VNull))
  else if c =? 116 then Some ([], LWord (lit "rue") (TScalar (VBool true)))
  else if c =? 102 then Some ([], LWord (lit "alse") (TScalar (VBool false)))
  else if c =? 45 then Some ([], LNum NMinus (num_start true 0))
  else if c =? 48 then Some ([], LNum NZero (num_start false 0))
  else if in_range 49 57 c then Some ([], LNum NInt (num_start false (c - 48)))
  else None.

Definition lex_step (st : LexState) (c : N) : option (list Token * LexState) :=
  match st with
  | LStart => lex_start c
  | LWord [] _ => None
  | LWord (e :: rest) t =>
      if c =? e then
        match rest with
        | [] => Some ([t], LStart)
        | _ :: _ => Some ([], LWord rest t)
        end
      else None
  | LStr acc =>
      if c =? 34 then Some ([TStr (rev acc)], LStart)
      else if c =? 92 then Some ([], LEsc acc)
      else if c <? 32 then None
      else Some ([], LStr (c :: acc))
  | LEsc acc =>
      if c =? 34 then Some ([], LStr (34 :: acc))
      else if c =? 92 then Some ([], LStr (92 :: acc))
      else if c =? 47 then Some ([], LStr (47 :: acc))
      else if c =? 98 then Some ([], LStr (8 :: acc))
      else if c =? 102 then Some ([], LStr (12 :: acc))
      else if c =? 110 then Some ([], LStr (10 :: acc))
      else if c =? 114 then Some ([], LStr (13 :: acc))
      else if c =? 116 then Some ([], LStr (9 :: acc))
      else if c =? 117 then Some ([], LUni 4 0 acc)
      else None
  | LUni k v acc =>
      match hex_value c, k with
      | Some h, S O => Some ([], LStr ((v * 16 + h) :: acc))
      | Some h, S k' => Some ([], LUni k' (v * 16 + h) acc)
      | _, _ => None
      end
  | LNum p a =>
      match num_step p a c with
      | Some (p', a') => Some ([], LNum p' a')
      | None =>
          if num_accepting p then
            match lex_start c with
            | Some (ts, st') => Some (TScalar (VNumber (num_finish a)) :: ts, st')
            | None => None
            end
          else None
      end
  end.

Definition lex_end (st : LexState) : option (list Token) :=
  match st with
  | LStart => Some []
  | LNum p a => if num_accepting p then Some [TScalar (VNumber (num_finish a))] else None
  | _ => None
  end.

Fixpoint lex (st : LexState) (s : JSString) : option (list Token) :=
  match s with
  | [] => lex_end st
  | c :: rest =>
      match lex_step st c with
      | Some (ts, st') => option_map (app ts) (lex st' rest)
      | None => None
      end
  end.

Inductive Frame :=
| FArr (rev_elems : list JSValue)
| FObj (props : list (JSString * JSValue))
| FKey (k : JSString).

Inductive Expect :=
| EValue
| EValueOrClose
| EKeyOrClose
| EKey
| EColon (k : JSString)
| ECommaOrClose
| EDone (v : JSValue).

Definition complete (v : JSValue) (stack : list Frame) : option (list Frame * Expect) :=
  match stack with
  | [] => Some ([], EDone v)
  | FArr es :: st => Some (FArr (v :: es) :: st, ECommaOrClose)
  | FKey k :: FObj ps :: st => Some (FObj (obj_set k v ps) :: st, ECommaOrClose)
  | _ => None
  end.

Definition parse_value_token (stack : list Frame) (t : Token) : option (list Frame * Expect) :=
  match t with
  | TScalar v => complete v stack
  | TStr s => complete (VString s) stack
  | TLBracket => Some (FArr [] :: stack, EValueOrClose)
  | TLBrace => Some (FObj [] :: stack, EKeyOrClose)
  | _ => None
  end.

Definition parse_step (stack : list Frame) (e : Expect) (t : Token)
  : option (list Frame * Expect) :=
  match e, t, stack with
  | EValue, _, _ => parse_value_token stack t
  | EValueOrClose, TRBracket, FArr es :: st => complete (VArray (rev es)) st
  | EValueOrClose, _, _ => parse_value_token stack t
  | EKeyOrClose, TRBrace, FObj ps :: st => complete (VObject ps) st
  | EKeyOrClose, TStr k, _ => Some (stack, EColon k)
  | EKey, TStr k, _ => Some (stack, EColon k)
  | EColon k, TColon, _ => Some (FKey k :: stack, EValue)
  | ECommaOrClose, TComma, FArr _ :: _ => Some (stack, EValue)
  | ECommaOrClose, TRBracket, FArr es :: st => complete (VArray (rev es)) st
  | ECommaOrClose, TComma, FObj _ :: _ => Some (stack, EKey)
  | ECommaOrClose, TRBrace, FObj ps :: st => complete (VObject ps) st
  | _, _, _ => None
  end.

Fixpoint parse_tokens (stack : list Frame) (e : Expect) (ts : list Token) : option JSValue :=
  match ts with
  | [] => match e, stack with
          | EDone v, [] => Some v
          | _, _ => None
          end
  | t :: rest =>
      match parse_step stack e t with
      | Some (stack', e') => parse_tokens stack' e' rest
      | None => None
      end
  end.

Definition JSON_parse (text : JSString) : option JSValue :=
  match lex LStart text with
  | Some ts => parse_tokens [] EValue ts
  | None => None
  end.

(** ** The URL record

    The components of a parsed URL that [request] reads. *)

Record URL :=
  { protocol : JSString;
    hostname : JSString;
    port : JSString;
    pathname : JSString;
    search : JSString }.

(** [opts.port] is [parsed.port || (isHttps ? 443 : 80)]: the port string of
    the URL when it is not empty, a Number otherwise. *)
Inductive Port := PortString (s : JSString) | PortNumber (n : N).

Record RequestOptions :=
  { o_hostname : JSString;
    o_port : Port;
    o_path : JSString;
    o_method : JSString;
    o_headers : list (JSString * JSString);
    o_timeout : N }.

(** ** The platform

    What the code takes from Node.js and is not spelled out here: the WHATWG
    URL parser behind [new URL] ([None] when it throws), the rendering of a
    Number as a string, [JSON.stringify] with and without indentation, and the
    synchronous validation [http.request] applies to its options ([Some m]
    when it throws an error with message [m]). *)

Class Platform :=
  { URL_parse : JSString -> option URL;
    Number_toString : JSNumber -> JSString;
    JSON_stringify : JSValue -> JSString;
    JSON_stringify_indent2 : JSValue -> JSString;
    http_request_throws : RequestOptions -> option JSString }.

(** ** Conversions and property access *)

Section Conversions.
Context {platform : Platform}.

(** ToString.  [None] stands for the TypeError of an object that cannot be
    converted to a primitive: a parsed object has only data properties, so an
    own property [toString] hides [Object.prototype.toString] with a value
    that cannot be called, and [valueOf] never yields a primitive.  An array
    is joined with commas, [null] elements rendering as the empty string. *)
Fixpoint ToString (v : JSValue) : option JSString :=
  match v with
  | VUndefined => Some (lit "undefined")
  | VNull => Some (lit "null")
  | VBool true => Some (lit "true")
  | VBool false => Some (lit "false")
  | VNumber n => Some (Number_toString n)
  | VString s => Some s
  | VArray elems =>
      (fix join (first : bool) (l : list JSValue) : option JSString :=
         match l with
         | [] => Some []
         | e :: rest =>
             let piece := match e with
                          | VUndefined | VNull => Some []
                          | _ => ToString e
                          end in
             match piece, join false rest with
             | Some p, Some r => Some ((if first then [] else [44]) ++ p ++ r)
             | _, _ => None
             end
         end) true elems
  | VObject props =>
      if obj_has (lit "toString") props then None
      else Some (lit "[object Object]")
  end.

(** [v.name] for a property name that no prototype defines and that is
    neither an index nor [length]: an own data property of an object,
    [undefined] on any other value that has properties.  On [null] and
    [undefined] the access throws; [inl] carries the message of the
    TypeError. *)
Definition get_member (v : JSValue) (name : JSString) : JSString + JSValue :=
  match v with
  | VNull =>
      inl (lit "Cannot read properties of null (reading '" ++ name ++ lit "')")
  | VUndefined =>
      inl (lit "Cannot read properties of undefined (reading '" ++ name ++ lit "')")
  | VObject props =>
      inr (match obj_get name props with Some x => x | None => VUndefined end)
  | _ => inr VUndefined
  end.

End Conversions.

(** ** A reference platform for plain URLs

    [plain_URL_parse] is the WHATWG parser on the URLs it covers: a lower-case
    [http://] or [https://] scheme, a host of dot-separated labels of
    lower-case letters, digits and hyphens whose last label starts with a
    letter, an optional decimal port, a path and a query written with
    characters the parser leaves as they are.  On those the parser keeps
    the host, drops a default port, removes dot segments from the path and
    keeps the query.  Every other input is mapped to [None]. *)

Fixpoint split_at (stop : N -> bool) (s : JSString) : JSString * JSString :=
  match s with
  | [] => ([], [])
  | c :: rest =>
      if stop c then ([], s)
      else let (a, b) := split_at stop rest in (c :: a, b)
  end.

Fixpoint split_on (sep : N) (cur : JSString) (s : JSString) : list JSString :=
  match s with
  | [] => [rev cur]
  | c :: rest =>
      if c =? sep then rev cur :: split_on sep [] rest
      else split_on sep (c :: cur) rest
  end.

Fixpoint strip_prefix (p s : JSString) : option JSString :=
  match p, s with
  | [], _ => Some s
  | a :: p', b :: s' => if a =? b then strip_prefix p' s' else None
  | _ :: _, [] => None
  end.

Definition to_lower (c : N) : N := if is_upper c then c + 32 else c.

Definition single_dot (seg : JSString) : bool :=
  let l := List.map to_lower seg in
  str_eqb l (lit ".") || str_eqb l (lit "%2e").

Definition double_dot (seg : JSString) : bool :=
  let l := List.map to_lower seg in
  str_eqb l (lit "..") || str_eqb l (lit ".%2e")
  || str_eqb l (lit "%2e.") || str_eqb l (lit "%2e%2e").

(** The path state of the URL parser on the segments of a path: a double-dot
    segment removes the last segment kept so far, a single-dot segment is
    dropped, and either leaves an empty segment when it ends the path.  The
    segments kept are held in reverse. *)
Fixpoint path_state (kept : list JSString) (segs : list JSString) : list JSString :=
  match segs with
  | [] => rev kept
  | seg :: rest =>
      let last := match rest with [] => true | _ => false end in
      if double_dot seg then
        let kept' := tl kept in
        path_state (if last then [] :: kept' else kept') rest
      else if single_dot seg then
        path_state (if last then [] :: kept else kept) rest
      else path_state (seg :: kept) rest
  end.

Definition join_path (segs : list JSString) : JSString :=
  flat_map (fun seg => 47 :: seg) segs.

Definition plain_path_char (c : N) : bool :=
  is_alnum c || mem c (lit "-._~!$&'()*+,;=:@%/").

Definition plain_query_char (c : N) : bool :=
  is_alnum c || mem c (lit "-._~!$&()*+,;=:@%/?").

Definition plain_label (l : JSString) : bool :=
  str_truthy l && forallb (fun c => is_lower c || is_digit c || (c =? 45)) l.

Definition plain_host (h : JSString) : bool :=
  let labels := split_on 46 [] h in
  forallb plain_label labels
  && match rev labels with
     | (c :: _) :: _ => is_lower c
     | _ => false
     end.

Definition digits_value (s : JSString) : N :=
  fold_left (fun acc c => acc * 10 + (c - 48)) s 0.

Definition plain_port (default : N) (s : JSString) : option JSString :=
  if forallb is_digit s then
    match s with
    | [] => Some []
    | _ :: _ =>
        let v := digits_value s in
        if 65535 <? v then None
        else if v =? default then Some [] else Some (dec v)
    end
  else None.

Definition plain_URL_parse (input : JSString) : option URL :=
  let scheme :=
    match strip_prefix (lit "https://") input with
    | Some rest => Some (lit "https:", 443, rest)
    | None =>
        match strip_prefix (lit "http://") input with
        | Some rest => Some (lit "http:", 80, rest)
        | None => None
        end
    end in
  match scheme with
  | None => None
  | Some (proto, default, rest) =>
      let (authority, tail) := split_at (fun c => mem c (lit "/?#")) rest in
      let (host, port_part) := split_at (fun c => c =? 58) authority in
      let (path, tail') := split_at (fun c => mem c (lit "?#")) tail in
      let (query, _) := split_at (fun c => c =? 35) (tl tail') in
      let query := match tail' with 63 :: _ => query | _ => [] end in
      if plain_host host && forallb plain_path_char path
         && forallb plain_query_char query then
        match plain_port default (tl port_part) with
        | None => None
        | Some p =>
            Some {| protocol := proto;
                    hostname := host;
                    port := p;
                    pathname := join_path (path_state [] (split_on 47 [] (tl path)));
                    search := match query with [] => [] | _ => 63 :: query end |}
        end
      else None
  end.

End JS.

Import JS.

(** ** Config *)

Record Env :=
  { CLOUD_AGENT_API_KEY : option JSString;
    CLOUD_AGENT_URL : option JSString }.

(** [process.env.NAME || fallback]: an unset or empty variable gives the
    fallback. *)
Definition env_or (v : option JSString) (fallback : JSString) : JSString :=
  match v with
  | Some s => if str_truthy s then s else fallback
  | None => fallback
  end.

(** [.replace(/\/$/, "")]: one trailing slash is removed. *)
Definition strip_trailing_slash (s : JSString) : JSString :=
  match rev s with
  | 47 :: r => rev r
  | _ => s
  end.

Record Config :=
  { API_KEY : JSString;
    BASE_URL : JSString;
    version : JSString }.

Definition load_config (env : Env) (package_version : JSString) : Config :=
  {| API_KEY := env_or (CLOUD_AGENT_API_KEY env) [];
     BASE_URL := strip_trailing_slash
                   (env_or (CLOUD_AGENT_URL env) (lit "https://cloudagent.metaltorque.dev"));
     version := package_version |}.

(** ** HTTP helper *)

Definition MAX_RESPONSE_SIZE : N := 5 * 1024 * 1024.

(** How the promise returned by [request] settles: [resolve(v)], or
    [reject(e)] with [e.message = message]. *)
Inductive Outcome :=
| Resolved (v : JSValue)
| Rejected (message : JSString).

(** A chunk of the response as the ['data'] listener sees it: [c.length] (the
    byte count of a Buffer, the code-unit count of a string) and the text
    that [data += c] appends. *)
Record Chunk := { c_length : N; c_text : JSString }.

Definition string_chunk (s : JSString) : Chunk :=
  {| c_length := N.of_nat (List.length s); c_text := s |}.

(** The variables of the response callback. *)
Record Response := { statusCode : N; data : JSString; size : N }.

(** Calls made on the HTTP client, in order: [mod.request(opts, ...)] on the
    [https] ([secure]) or [http] module, [req.write], [req.end],
    [req.destroy]. *)
Inductive Effect :=
| HttpRequest (secure : bool) (opts : RequestOptions)
| ReqWrite (payload : JSString)
| ReqEnd
| ReqDestroy.

(** One exchange: the calls made so far, the state of the promise, the
    response once its callback has run, and whether the connection is still
    open. *)
Record Exchange :=
  { trace : list Effect;
    promise : option Outcome;
    res : option Response;
    live : bool }.

(** Events the HTTP client delivers to the listeners [request] installs. *)
Inductive NetEvent :=
| EvResponse (status : N)
| EvData (c : Chunk)
| EvEnd
| EvError (message : JSString)
| EvTimeout.

(** [resolve] and [reject]: a settled promise stays as it is. *)
Definition settle (o : Outcome) (x : Exchange) : Exchange :=
  match promise x with
  | Some _ => x
  | None => {| trace := trace x; promise := Some o; res := res x; live := live x |}
  end.

(** [req.destroy()]: the call is recorded and the connection closed. *)
Definition req_destroy (x : Exchange) : Exchange :=
  {| trace := trace x ++ [ReqDestroy]; promise := promise x; res := res x; live := false |}.

Definition close (x : Exchange) : Exchange :=
  {| trace := trace x; promise := promise x; res := res x; live := false |}.

Definition with_res (r : Response) (x : Exchange) : Exchange :=
  {| trace := trace x; promise := promise x; res := Some r; live := live x |}.

Section Transport.
Context {platform : Platform}.
Variable cfg : Config.

(** The callback of [mod.request]: [let data = ""; let size = 0]. *)
Definition on_response (status : N) (x : Exchange) : Exchange :=
  with_res {| statusCode := status; data := []; size := 0 |} x.

(** [res.on("data", ...)]. *)
Definition on_data (c : Chunk) (x : Exchange) : Exchange :=
  match res x with
  | None => x
  | Some r =>
      let size' := size r + c_length c in
      if MAX_RESPONSE_SIZE <? size' then
        settle (Rejected (lit "Response too large"))
          (req_destroy
             (with_res {| statusCode := statusCode r; data := data r; size := size' |} x))
      else
        with_res {| statusCode := statusCode r;
                    data := data r ++ c_text c;
                    size := size' |} x
  end.

(** The [try] block of the ['end'] listener; [None] when it throws. *)
Definition on_end_try (r : Response) : option Outcome :=
  match JSON_parse (data r) with
  | None => None
  | Some json =>
      if 400 <=? statusCode r then
        match get_member json (lit "error") with
        | inl _ => None
        | inr e =>
            match ToString (js_or e (VString (lit "HTTP " ++ dec (statusCode r)))) with
            | Some m => Some (Rejected m)
            | None => None
            end
        end
      else Some (Resolved json)
  end.

(** Its [catch] block. *)
Definition on_end_catch (r : Response) : Outcome :=
  if 400 <=? statusCode r then
    Rejected (lit "HTTP " ++ dec (statusCode r) ++ lit ": " ++ slice0 300 (data r))
  else Resolved (VString (data r)).

(** [res.on("end", ...)]. *)
Definition on_end (x : Exchange) : Exchange :=
  match res x with
  | None => x
  | Some r =>
      settle (match on_end_try r with
              | Some o => o
              | None => on_end_catch r
              end) x
  end.

(** [req.on("error", reject)]. *)
Definition on_error (message : JSString) (x : Exchange) : Exchange :=
  settle (Rejected message) x.

(** [req.on("timeout", ...)]. *)
Definition on_timeout (x : Exchange) : Exchange :=
  settle (Rejected (lit "Request timed out")) (req_destroy x).

(** The life cycle of an [http.ClientRequest]: events reach the listeners
    only while the connection is open; [req.destroy()], an ['error'] and the
    ['end'] of the response close it.  The response callback runs once, and
    the listeners of the response exist only after it. *)
Definition deliver (x : Exchange) (ev : NetEvent) : Exchange :=
  if live x then
    match ev with
    | EvResponse status =>
        match res x with
        | None => on_response status x
        | Some _ => x
        end
    | EvData c => on_data c x
    | EvEnd => match res x with
               | None => x
               | Some _ => close (on_end x)
               end
    | EvError m => close (on_error m x)
    | EvTimeout => on_timeout x
    end
  else x.

Definition run_events (script : list NetEvent) (x : Exchange) : Exchange :=
  fold_left deliver script x.

Definition rejected_exchange (tr : list Effect) (message : JSString) : Exchange :=
  {| trace := tr; promise := Some (Rejected message); res := None; live := false |}.

Definition headers_for (key ver : JSString) : list (JSString * JSString) :=
  [(lit "Content-Type", lit "application/json");
   (lit "User-Agent", lit "mcp-server-cloud-agent/" ++ ver)]
  ++ (if str_truthy key then [(lit "Authorization", lit "Bearer " ++ key)] else []).

(** The body of the promise executor, up to [req.end()].  An exception
    thrown by [new URL] or by [mod.request] rejects the promise. *)
Definition request (method urlPath : JSString) (body : JSValue) (timeout : option N)
  : Exchange :=
  let timeout := match timeout with Some t => t | None => 600000 end in
  let fullUrl := BASE_URL cfg ++ urlPath in
  match URL_parse fullUrl with
  | None => rejected_exchange [] (lit "Invalid URL")
  | Some parsed =>
      let isHttps := str_eqb (protocol parsed) (lit "https:") in
      if negb isHttps && str_truthy (API_KEY cfg) then
        rejected_exchange []
          (lit "Refusing to send API key over insecure HTTP. Use HTTPS.")
      else
        let headers := headers_for (API_KEY cfg) (version cfg) in
        let opts :=
          {| o_hostname := hostname parsed;
             o_port := if str_truthy (port parsed) then PortString (port parsed)
                       else PortNumber (if isHttps then 443 else 80);
             o_path := pathname parsed ++ search parsed;
             o_method := method;
             o_headers := headers;
             o_timeout := timeout |} in
        match http_request_throws opts with
        | Some m => rejected_exchange [HttpRequest isHttps opts] m
        | None =>
            {| trace := [HttpRequest isHttps opts]
                        ++ (if truthy body then [ReqWrite (JSON_stringify body)] else [])
                        ++ [ReqEnd];
               promise := None;
               res := None;
               live := true |}
        end
  end.

(** [request] followed by the events of the network. *)
Definition exchange (method urlPath : JSString) (body : JSValue) (timeout : option N)
    (script : list NetEvent) : Exchange :=
  run_events script (request method urlPath body timeout).

End Transport.

(** ** MCP Server: the tool handlers *)

(** The [text] of the content [noKeyError] returns. *)
Definition noKeyError : JSValue :=
  VString (lit "Error: CLOUD_AGENT_API_KEY environment variable is required."
           ++ [10; 10]
           ++ lit "Get an API key from your Cloud Agent web workspace at /auth/api-key."
           ++ [10]
           ++ lit "API keys use the ca_* prefix.").

(** Arguments as the zod schemas of [server.tool] admit them; an optional
    argument that is absent is [None]. *)
Inductive ScanType := scan_all | scan_dependencies | scan_secrets | scan_code.
Inductive SessionStatus := status_running | status_completed | status_error.

Definition scan_type_name (t : ScanType) : JSString :=
  match t with
  | scan_all => lit "all"
  | scan_dependencies => lit "dependencies"
  | scan_secrets => lit "secrets"
  | scan_code => lit "code"
  end.

Definition status_name (s : SessionStatus) : JSString :=
  match s with
  | status_running => lit "running"
  | status_completed => lit "completed"
  | status_error => lit "error"
  end.

Inductive ToolCall :=
| run_task (prompt : JSString)
| review_pr (pr_url : JSString) (post_comments : option bool)
| ask_codebase (question repo : JSString)
| generate_tests (repo : JSString) (file feature : option JSString)
| security_scan (repos : list JSString) (type : option ScanType)
| list_sessions (limit : option N) (status : option SessionStatus)
| list_playbooks
| run_playbook (slug repo : JSString) (inputs : option (list (JSString * JSString)))
| get_usage (days : option N).

(** A handler either returns the text of its content at once, or awaits one
    call of [request] and turns the way it settles into the text. *)
Inductive Handler :=
| Return (text : JSValue)
| Await (method urlPath : JSString) (body : JSValue) (k : Outcome -> JSValue).

Definition optional (s : option JSString) : JSValue :=
  match s with Some x => VString x | None => VUndefined end.

Definition error_text (message : JSString) : JSValue :=
  VString (lit "Error: " ++ message).

Section Tools.
Context {platform : Platform}.
Variable cfg : Config.

(** The [try]/[catch] around [await request(...)]: [format] is the code
    between the [await] and the [return]; a rejection, or a TypeError thrown
    by [format], becomes ["Error: " + e.message]. *)
Definition on_outcome (format : JSValue -> JSString + JSValue) (o : Outcome) : JSValue :=
  match o with
  | Rejected m => error_text m
  | Resolved result =>
      match format result with
      | inr text => text
      | inl m => error_text m
      end
  end.

Definition bind {A} (m : JSString + JSValue) (f : JSValue -> JSString + A) : JSString + A :=
  match m with
  | inl e => inl e
  | inr v => f v
  end.

(** The summary [run_task] and [generate_tests] return. *)
Definition task_summary (result : JSValue) : JSString + JSValue :=
  bind (get_member result (lit "response")) (fun response =>
  bind (get_member result (lit "cost_usd")) (fun cost_usd =>
  bind (get_member result (lit "duration_ms")) (fun duration_ms =>
  bind (get_member result (lit "pr_url")) (fun pr_url =>
  inr (VString (JSON_stringify_indent2
         (VObject [(lit "response", response);
                   (lit "cost_usd", cost_usd);
                   (lit "duration_ms", duration_ms);
                   (lit "pr_url", js_or pr_url VNull)]))))))).

Definition field_or_json (name : JSString) (result : JSValue) : JSString + JSValue :=
  bind (get_member result name) (fun field =>
  inr (js_or field (VString (JSON_stringify_indent2 result)))).

Definition whole_json (result : JSValue) : JSString + JSValue :=
  inr (VString (JSON_stringify_indent2 result)).

Definition sessions_json (result : JSValue) : JSString + JSValue :=
  bind (get_member result (lit "sessions")) (fun sessions =>
  inr (VString (JSON_stringify_indent2 (js_or sessions result)))).

Definition handle_run_task (prompt : JSString) : Handler :=
  if negb (str_truthy (API_KEY cfg)) then Return noKeyError
  else Await (lit "POST") (lit "/query")
             (VObject [(lit "prompt", VString prompt)])
             (on_outcome task_summary).

Definition handle_review_pr (pr_url : JSString) (post_comments : option bool) : Handler :=
  if negb (str_truthy (API_KEY cfg)) then Return noKeyError
  else Await (lit "POST") (lit "/review")
             (VObject [(lit "pr_url", VString pr_url);
                       (lit "post_review",
                        VBool (match post_comments with Some true => true | _ => false end))])
             (on_outcome (field_or_json (lit "review"))).

Definition handle_ask_codebase (question repo : JSString) : Handler :=
  if negb (str_truthy (API_KEY cfg)) then Return noKeyError
  else Await (lit "POST") (lit "/ask")
             (VObject [(lit "question", VString question); (lit "repo", VString repo)])
             (on_outcome (field_or_json (lit "answer"))).

Definition handle_generate_tests (repo : JSString) (file feature : option JSString) : Handler :=
  if negb (str_truthy (API_KEY cfg)) then Return noKeyError
  else
    let target := js_or (optional file) (optional feature) in
    if negb (truthy target) then
      Return (VString (lit "Error: Provide either 'file' or 'feature' to test."))
    else Await (lit "POST") (lit "/test")
               (VObject [(lit "file", optional file);
                         (lit "feature", optional feature);
                         (lit "repo", VString repo)])
               (on_outcome task_summary).

Definition handle_security_scan (repos : list JSString) (type : option ScanType) : Handler :=
  if negb (str_truthy (API_KEY cfg)) then Return noKeyError
  else Await (lit "POST") (lit "/scan")
             (VObject [(lit "repos", VArray (List.map VString repos));
                       (lit "type",
                        VString (match type with
                                 | Some t => scan_type_name t
                                 | None => lit "all"
                                 end))])
             (on_outcome whole_json).

Definition handle_list_sessions (limit : option N) (status : option SessionStatus) : Handler :=
  if negb (str_truthy (API_KEY cfg)) then Return noKeyError
  else
    let path := lit "/api/sessions?limit="
                ++ dec (match limit with
                        | Some n => if n =? 0 then 20 else n
                        | None => 20
                        end) in
    let path := match status with
                | Some s => path ++ lit "&status=" ++ status_name s
                | None => path
                end in
    Await (lit "GET") path VUndefined (on_outcome sessions_json).

Definition handle_list_playbooks : Handler :=
  if negb (str_truthy (API_KEY cfg)) then Return noKeyError
  else Await (lit "GET") (lit "/api/playbooks") VUndefined (on_outcome whole_json).

(** [encodeURIComponent] is evaluated inside the [try]: its URIError is
    caught like a rejection. *)
Definition handle_run_playbook (slug repo : JSString)
    (inputs : option (list (JSString * JSString))) : Handler :=
  if negb (str_truthy (API_KEY cfg)) then Return noKeyError
  else
    match encodeURIComponent slug with
    | None => Return (error_text (lit "URI malformed"))
    | Some encoded =>
        Await (lit "POST") (lit "/api/playbooks/" ++ encoded ++ lit "/run")
              (VObject [(lit "repo", VString repo);
                        (lit "inputs",
                         match inputs with
                         | Some kvs => VObject (List.map (fun kv => (fst kv, VString (snd kv))) kvs)
                         | None => VUndefined
                         end)])
              (on_outcome whole_json)
    end.

Definition handle_get_usage (days : option N) : Handler :=
  if negb (str_truthy (API_KEY cfg)) then Return noKeyError
  else
    let path := match days with
                | Some d => if d =? 0 then lit "/api/usage"
                            else lit "/api/usage?days=" ++ dec d
                | None => lit "/api/usage"
                end in
    Await (lit "GET") path VUndefined (on_outcome whole_json).

Definition handle (call : ToolCall) : Handler :=
  match call with
  | run_task prompt => handle_run_task prompt
  | review_pr pr_url post_comments => handle_review_pr pr_url post_comments
  | ask_codebase question repo => handle_ask_codebase question repo
  | generate_tests repo file feature => handle_generate_tests repo file feature
  | security_scan repos type => handle_security_scan repos type
  | list_sessions limit status => handle_list_sessions limit status
  | list_playbooks => handle_list_playbooks
  | run_playbook slug repo inputs => handle_run_playbook slug repo inputs
  | get_usage days => handle_get_usage days
  end.

(** A whole invocation against a network that delivers [script]: the calls
    made on the HTTP client, and the text returned ([None] while the promise
    awaited is still pending). *)
Definition invoke (call : ToolCall) (script : list NetEvent)
  : list Effect * option JSValue :=
  match handle call with
  | Return text => ([], Some text)
  | Await method urlPath body k =>
      let x := exchange cfg method urlPath body None script in
      (trace x, option_map k (promise x))
  end.

End Tools.

(** ** A reference platform

    Node.js on the inputs the examples below use: plain URLs
    ([plain_URL_parse]); Numbers written with at most 15 significant digits,
    which a double holds and prints back digit for digit, and those that
    round to zero or to an infinity; [JSON.stringify] of values built from
    such Numbers; and the checks of [http.request] on the request path and
    the header values. *)

Module Reference.

Fixpoint strip_zeros (fuel : nat) (m : N) (e : Z) : N * Z :=
  match fuel with
  | O => (m, e)
  | S fuel' =>
      if (m =? 0) || negb (m mod 10 =? 0) then (m, e)
      else strip_zeros fuel' (m / 10) (e + 1)%Z
  end.

(** A decimal of magnitude [2^1024 - 2^970] or more rounds to an infinity. *)
Definition overflows (n : JSNumber) : bool :=
  let bound := 2 ^ 1024 - 2 ^ 970 in
  if (0 <=? exp10 n)%Z then bound <=? mant n * 10 ^ Z.to_N (exp10 n)
  else bound * 10 ^ Z.to_N (- exp10 n) <=? mant n.

(** Number::toString on the digits [d1 ... dk] and the position [pos] of the
    decimal point, the value being [0.d1...dk * 10^pos]. *)
Definition number_toString (n : JSNumber) : JSString :=
  if number_is_zero n then lit "0"
  else
    let sign := if neg n then lit "-" else [] in
    if overflows n then sign ++ lit "Infinity"
    else
      let (m, e) := strip_zeros (S (N.to_nat (N.log2 (mant n)))) (mant n) (exp10 n) in
      let digits := dec m in
      let k := Z.of_nat (List.length digits) in
      let pos := (k + e)%Z in
      sign ++
      if (k <=? pos)%Z && (pos <=? 21)%Z then
        digits ++ repeat 48 (Z.to_nat (pos - k))
      else if (0 <? pos)%Z && (pos <=? 21)%Z then
        firstn (Z.to_nat pos) digits ++ lit "." ++ skipn (Z.to_nat pos) digits
      else if (-6 <? pos)%Z && (pos <=? 0)%Z then
        lit "0." ++ repeat 48 (Z.to_nat (- pos)) ++ digits
      else
        let exponent := (if (pos - 1 <? 0)%Z then lit "-" else lit "+")
                        ++ dec (Z.abs_N (pos - 1)) in
        match digits with
        | [] => []
        | [d] => [d] ++ lit "e" ++ exponent
        | d :: ds => [d] ++ lit "." ++ ds ++ lit "e" ++ exponent
        end.

Definition hex_lower (d : N) : N := if d <? 10 then 48 + d else 87 + d.

Definition unicode_escape (c : N) : JSString :=
  lit "\u" ++ [hex_lower (c / 4096 mod 16); hex_lower (c / 256 mod 16);
               hex_lower (c / 16 mod 16); hex_lower (c mod 16)].

(** QuoteJSONString, without the enclosing quotes. *)
Fixpoint quote_body (s : JSString) : JSString :=
  match s with
  | [] => []
  | c :: rest =>
      if c =? 8 then lit "\b" ++ quote_body rest
      else if c =? 9 then lit "\t" ++ quote_body rest
      else if c =? 10 then lit "\n" ++ quote_body rest
      else if c =? 12 then lit "\f" ++ quote_body rest
      else if c =? 13 then lit "\r" ++ quote_body rest
      else if c =? 34 then [92; 34] ++ quote_body rest
      else if c =? 92 then [92; 92] ++ quote_body rest
      else if c <? 32 then unicode_escape c ++ quote_body rest
      else if is_low_surrogate c then unicode_escape c ++ quote_body rest
      else if is_high_surrogate c then
        match rest with
        | d :: rest' =>
            if is_low_surrogate d then c :: d :: quote_body rest'
            else unicode_escape c ++ quote_body rest
        | [] => unicode_escape c
        end
      else c :: quote_body rest
  end.

Definition quote (s : JSString) : JSString := [34] ++ quote_body s ++ [34].

(** Own keys are enumerated with array indices first, in ascending order,
    then the other keys in creation order. *)
Definition array_index (k : JSString) : option N :=
  match k with
  | [] => None
  | c :: rest =>
      if forallb is_digit k && (negb (c =? 48) || negb (str_truthy rest))
         && (digits_value k <? 2 ^ 32 - 1)
      then Some (digits_value k) else None
  end.

Fixpoint insert_index {A} (i : N) (x : A) (l : list (N * A)) : list (N * A) :=
  match l with
  | [] => [(i, x)]
  | (j, y) :: rest => if i <? j then (i, x) :: l else (j, y) :: insert_index i x rest
  end.

Definition enumerate {A} (members : list (JSString * A)) : list (JSString * A) :=
  let indexed :=
    fold_left (fun acc kv => match array_index (fst kv) with
                             | Some i => insert_index i kv acc
                             | None => acc
                             end) members [] in
  List.map snd indexed
  ++ filter (fun kv => match array_index (fst kv) with Some _ => false | None => true end)
            members.

Fixpoint join (sep : JSString) (items : list JSString) : JSString :=
  match items with
  | [] => []
  | [x] => x
  | x :: rest => x ++ sep ++ join sep rest
  end.

Definition wrap (opening closing gap indent : JSString) (items : list JSString) : JSString :=
  match items with
  | [] => opening ++ closing
  | _ :: _ =>
      match gap with
      | [] => opening ++ join (lit ",") items ++ closing
      | _ :: _ =>
          let inner := indent ++ gap in
          opening ++ [10] ++ inner ++ join (lit "," ++ [10] ++ inner) items
          ++ [10] ++ indent ++ closing
      end
  end.

(** SerializeJSONProperty; [None] stands for [undefined]. *)
Fixpoint serialize (gap indent : JSString) (v : JSValue) : option JSString :=
  match v with
  | VUndefined => None
  | VNull => Some (lit "null")
  | VBool true => Some (lit "true")
  | VBool false => Some (lit "false")
  | VNumber n => Some (if overflows n then lit "null" else number_toString n)
  | VString s => Some (quote s)
  | VArray elems =>
      Some (wrap (lit "[") (lit "]") gap indent
              (List.map (fun e => match serialize gap (indent ++ gap) e with
                                  | Some s => s
                                  | None => lit "null"
                                  end) elems))
  | VObject props =>
      let members :=
        List.map (fun kv => match kv with
                            | (k, x) => (k, serialize gap (indent ++ gap) x)
                            end) props in
      Some (wrap (lit "{") (lit "}") gap indent
              (flat_map (fun kv => match snd kv with
                                   | Some s => [quote (fst kv) ++ lit ":"
                                                ++ (if str_truthy gap then lit " " else [])
                                                ++ s]
                                   | None => []
                                   end) (enumerate members)))
  end.

Definition stringify (gap : JSString) (v : JSValue) : JSString :=
  match serialize gap [] v with
  | Some s => s
  | None => lit "undefined"
  end.

(** [http.request] throws on a path with a character outside [!]..[U+00FF]
    and on a header value with a character other than tab, a printable ASCII
    character or [U+0080]..[U+00FF]. *)
Definition header_value_ok (v : JSString) : bool :=
  forallb (fun c => (c =? 9) || in_range 32 126 c || in_range 128 255 c) v.

Definition request_throws (opts : RequestOptions) : option JSString :=
  if negb (forallb (in_range 33 255) (o_path opts)) then
    Some (lit "Request path contains unescaped characters")
  else
    match filter (fun h => negb (header_value_ok (snd h))) (o_headers opts) with
    | (name, _) :: _ =>
        Some (lit "Invalid character in header content [" ++ [34] ++ name ++ [34] ++ lit "]")
    | [] => None
    end.

#[export] Instance node : Platform :=
  {| URL_parse := plain_URL_parse;
     Number_toString := number_toString;
     JSON_stringify := stringify [];
     JSON_stringify_indent2 := stringify (lit "  ");
     http_request_throws := request_throws |}.

End Reference.

(** ** Vocabulary of the statements *)

(** While the connection is open the promise is pending. *)
Definition pending_while_live (x : Exchange) : Prop :=
  live x = true -> promise x = None.

(** An API key and a plain [http://] base URL, as in the security tests. *)
Definition insecure_cfg : Config :=
  load_config {| CLOUD_AGENT_API_KEY := Some (lit "ca_secret_key");
                 CLOUD_AGENT_URL := Some (lit "http://example.com/") |}
              (lit "1.0.0").

(** The default base URL with an API key. *)
Definition test_cfg : Config :=
  load_config {| CLOUD_AGENT_API_KEY := Some (lit "ca_test");
                 CLOUD_AGENT_URL := None |}
              (lit "1.0.0").


Definition total_length (cs : list Chunk) : N :=
  fold_right (fun c acc => c_length c + acc) 0 cs.

Definition chunks_text (cs : list Chunk) : JSString := flat_map c_text cs.

(** What [data] holds is the text of chunks whose lengths add up to at most
    the ceiling; while the connection is open, [size] is that sum. *)
Definition within_ceiling (x : Exchange) : Prop :=
  forall r, res x = Some r ->
    exists kept, data r = chunks_text kept
                 /\ total_length kept <= MAX_RESPONSE_SIZE
                 /\ (live x = true -> size r = total_length kept).

(** The body [{"error":"Unauthorized"}]. *)
Definition unauthorized_body : JSString :=
  lit "{" ++ [34] ++ lit "error" ++ [34] ++ lit ":"
  ++ [34] ++ lit "Unauthorized" ++ [34] ++ lit "}".

Definition is_hex_upper (c : N) : bool := in_range 48 57 c || in_range 65 70 c.

(** What [encodeURIComponent] can write: an unescaped character, or the
    percent sign and upper-case hexadecimal digits of an escape. *)
Definition escaped_unit (c : N) : Prop :=
  uri_unescaped c = true \/ c = 37 \/ is_hex_upper c = true.

Definition provide_target_error : JSValue :=
  VString (lit "Error: Provide either 'file' or 'feature' to test.").

(** The same bound without reference to the connection: what [data] holds
    never exceeds the ceiling nor what [size] has counted. *)
Definition holds_at_most_ceiling (r : Response) : Prop :=
  exists kept, data r = chunks_text kept
               /\ total_length kept <= MAX_RESPONSE_SIZE
               /\ total_length kept <= size r.

(** An optional string argument that is present and not empty. *)
Definition given (s : option JSString) : bool :=
  match s with
  | Some (_ :: _) => true
  | _ => false
  end.

(** Whether an effect is a call of [mod.request]. *)
Definition is_request (e : Effect) : bool :=
  match e with HttpRequest _ _ => true | _ => false end.

(** A call of [mod.request] on the [https] module that carries the
    credential of [cfg] and the default timeout. *)
Definition authorized_request (cfg : Config) (e : Effect) : Prop :=
  match e with
  | HttpRequest secure opts =>
      secure = true
      /\ In (lit "Authorization", lit "Bearer " ++ API_KEY cfg) (o_headers opts)
      /\ In (lit "Content-Type", lit "application/json") (o_headers opts)
      /\ In (lit "User-Agent", lit "mcp-server-cloud-agent/" ++ version cfg) (o_headers opts)
      /\ o_timeout opts = 600000
      /\ (o_method opts = lit "GET" \/ o_method opts = lit "POST")
  | _ => True
  end.

(** No surrogate code unit at all. *)
Definition no_surrogate (c : N) : bool :=
  negb (is_high_surrogate c) && negb (is_low_surrogate c).

Definition is_destroy (e : Effect) : bool :=
  match e with ReqDestroy => true | _ => false end.

(** A configuration without an API key whose base URL is plain HTTP. *)
Definition open_http_cfg : Config :=
  load_config {| CLOUD_AGENT_API_KEY := None;
                 CLOUD_AGENT_URL := Some (lit "http://localhost:3000") |}
              (lit "1.0.0").

(** An API key with a base URL that is not a URL. *)
Definition broken_url_cfg : Config :=
  load_config {| CLOUD_AGENT_API_KEY := Some (lit "ca_test");
                 CLOUD_AGENT_URL := Some (lit "cloudagent") |}
              (lit "1.0.0").

(** Well-formed UTF-16: every surrogate is half of a pair, high then low. *)
Fixpoint well_formed (s : JSString) : bool :=
  match s with
  | [] => true
  | c :: rest =>
      if is_low_surrogate c then false
      else if is_high_surrogate c then
        match rest with
        | d :: rest' => is_low_surrogate d && well_formed rest'
        | [] => false
        end
      else well_formed rest
  end.

(** A base URL from the environment, with or without an API key. *)
Definition cfg_with_url (key : option JSString) (url ver : JSString) : Config :=
  load_config {| CLOUD_AGENT_API_KEY := key; CLOUD_AGENT_URL := Some url |} ver.

(** The member [name] of an object, [undefined] when it has none. *)
Definition member (name : JSString) (props : list (JSString * JSValue)) : JSValue :=
  match obj_get name props with
  | Some v => v
  | None => VUndefined
  end.

(** The body [{"review":"LGTM","posted":false}]. *)
Definition review_body : JSString :=
  lit "{" ++ [34] ++ lit "review" ++ [34] ++ lit ":" ++ [34] ++ lit "LGTM" ++ [34]
  ++ lit "," ++ [34] ++ lit "posted" ++ [34] ++ lit ":false}".

(** The body [{"response":"Done","cost_usd":1,"secret":"s"}]. *)
Definition task_body : JSString :=
  lit "{" ++ [34] ++ lit "response" ++ [34] ++ lit ":" ++ [34] ++ lit "Done" ++ [34]
  ++ lit "," ++ [34] ++ lit "cost_usd" ++ [34] ++ lit ":1,"
  ++ [34] ++ lit "secret" ++ [34] ++ lit ":" ++ [34] ++ lit "s" ++ [34] ++ lit "}".

(** The body [{"sessions":[],"total":0}]. *)
Definition sessions_body : JSString :=
  lit "{" ++ [34] ++ lit "sessions" ++ [34] ++ lit ":[],"
  ++ [34] ++ lit "total" ++ [34] ++ lit ":0}".

(** The body [{"response":"Done","cost_usd":1}]. *)
Definition task_body_plain : JSString :=
  lit "{" ++ [34] ++ lit "response" ++ [34] ++ lit ":" ++ [34] ++ lit "Done" ++ [34]
  ++ lit "," ++ [34] ++ lit "cost_usd" ++ [34] ++ lit ":1}".

(** The four members of a payload that the task summary reads. *)
Definition summary_members : list JSString :=
  [lit "response"; lit "cost_usd"; lit "duration_ms"; lit "pr_url"].

(** ** Properties of the transport *)

Lemma str_eqb_eq (a b : JSString) : str_eqb a b = true <-> a = b.
Proof.
  unfold str_eqb. destruct (list_eq_dec N.eq_dec a b); split; congruence.
Qed.

Lemma str_eqb_refl (a : JSString) : str_eqb a a = true.
Proof. now apply str_eqb_eq. Qed.

Section TransportFacts.
Context {platform : Platform}.
Variable cfg : Config.

Lemma run_events_closed (script : list NetEvent) (x : Exchange) :
  live x = false -> run_events script x = x.
Proof.
  intros Hclosed. induction script as [|ev script IH]; [reflexivity|].
  unfold run_events in *. simpl. unfold deliver at 2. rewrite Hclosed. exact IH.
Qed.

Lemma run_events_app (s1 s2 : list NetEvent) (x : Exchange) :
  run_events (s1 ++ s2) x = run_events s2 (run_events s1 x).
Proof. unfold run_events. apply fold_left_app. Qed.

Lemma settle_pending (o : Outcome) (x : Exchange) :
  promise x = None -> promise (settle o x) = Some o.
Proof. intros H. unfold settle. rewrite H. reflexivity. Qed.

Lemma settle_live (o : Outcome) (x : Exchange) : live (settle o x) = live x.
Proof. unfold settle. destruct (promise x); reflexivity. Qed.

Lemma settle_trace (o : Outcome) (x : Exchange) : trace (settle o x) = trace x.
Proof. unfold settle. destruct (promise x); reflexivity. Qed.

Lemma settle_res (o : Outcome) (x : Exchange) : res (settle o x) = res x.
Proof. unfold settle. destruct (promise x); reflexivity. Qed.

Lemma settle_settled (o o' : Outcome) (x : Exchange) :
  promise x = Some o' -> settle o x = x.
Proof. intros H. unfold settle. rewrite H. reflexivity. Qed.

(** Once the promise is settled no listener changes the outcome, whether or
    not the connection still delivers events. *)
Lemma listeners_keep_outcome (x : Exchange) (o : Outcome) (c : Chunk) (m : JSString) :
  promise x = Some o ->
  promise (on_data c x) = Some o
  /\ promise (on_end x) = Some o
  /\ promise (on_error m x) = Some o
  /\ promise (on_timeout x) = Some o.
Proof.
  intros Hx. repeat split.
  - unfold on_data. destruct (res x) as [r|]; [|exact Hx].
    destruct (MAX_RESPONSE_SIZE <? size r + c_length c); [|exact Hx].
    rewrite (settle_settled _ o); [exact Hx|exact Hx].
  - unfold on_end. destruct (res x); [|exact Hx].
    rewrite (settle_settled _ o); exact Hx.
  - unfold on_error. rewrite (settle_settled _ o); exact Hx.
  - unfold on_timeout. rewrite (settle_settled _ o); exact Hx.
Qed.

Lemma deliver_pending_while_live (x : Exchange) (ev : NetEvent) :
  pending_while_live x -> pending_while_live (deliver x ev).
Proof.
  unfold pending_while_live, deliver. intros Hx.
  destruct (live x) eqn:Hlive; [|intros H; congruence].
  specialize (Hx eq_refl).
  destruct ev as [status|c| |m|].
  - destruct (res x); [intros _; exact Hx|]. unfold on_response. simpl. intros _; exact Hx.
  - unfold on_data. destruct (res x) as [r|]; [|intros _; exact Hx].
    destruct (MAX_RESPONSE_SIZE <? size r + c_length c).
    + rewrite settle_live. simpl. discriminate.
    + simpl. intros _; exact Hx.
  - destruct (res x); [simpl; discriminate|intros _; exact Hx].
  - simpl. discriminate.
  - unfold on_timeout. rewrite settle_live. simpl. discriminate.
Qed.

Lemma run_events_pending_while_live (script : list NetEvent) (x : Exchange) :
  pending_while_live x -> pending_while_live (run_events script x).
Proof.
  revert x. induction script as [|ev script IH]; intros x Hx; [exact Hx|].
  apply (IH (deliver x ev)). now apply deliver_pending_while_live.
Qed.

Lemma request_pending_while_live method urlPath body timeout :
  pending_while_live (request cfg method urlPath body timeout).
Proof.
  unfold pending_while_live, request.
  destruct (URL_parse (BASE_URL cfg ++ urlPath)) as [parsed|]; [|simpl; discriminate].
  destruct (negb (str_eqb (protocol parsed) (lit "https:")) && str_truthy (API_KEY cfg));
    [simpl; discriminate|].
  match goal with |- context [http_request_throws ?o] => destruct (http_request_throws o) end;
    simpl; [discriminate|reflexivity].
Qed.

Lemma exchange_pending_while_live method urlPath body timeout script :
  pending_while_live (exchange cfg method urlPath body timeout script).
Proof. apply run_events_pending_while_live, request_pending_while_live. Qed.

End TransportFacts.

(** C1. When an API key is configured and the URL that [request] resolves
    has a scheme other than HTTPS, the promise is rejected with "Refusing to
    send API key over insecure HTTP. Use HTTPS." before anything is done on
    the HTTP client: no call of [mod.request], [req.write] or [req.end] is
    made, and no later network event changes that. *)
Theorem C1_insecure_scheme_refused_before_io
    {platform : Platform} (cfg : Config) (method urlPath : JSString)
    (body : JSValue) (timeout : option N) (parsed : URL) (script : list NetEvent) :
  str_truthy (API_KEY cfg) = true ->
  URL_parse (BASE_URL cfg ++ urlPath) = Some parsed ->
  protocol parsed <> lit "https:" ->
  let x := exchange cfg method urlPath body timeout script in
  promise x = Some (Rejected (lit "Refusing to send API key over insecure HTTP. Use HTTPS."))
  /\ trace x = []
  /\ trace (request cfg method urlPath body timeout) = [].
Proof.
  intros Hkey Hurl Hscheme x.
  assert (Hreq : request cfg method urlPath body timeout =
                 rejected_exchange []
                   (lit "Refusing to send API key over insecure HTTP. Use HTTPS.")).
  { unfold request. rewrite Hurl, Hkey.
    destruct (str_eqb (protocol parsed) (lit "https:")) eqn:E.
    - apply str_eqb_eq in E. contradiction.
    - reflexivity. }
  subst x. unfold exchange. rewrite Hreq.
  rewrite run_events_closed by reflexivity. repeat split; reflexivity.
Qed.

Lemma C1_witness :
  let x := exchange (platform := Reference.node) insecure_cfg (lit "POST") (lit "/query")
             (VObject [(lit "prompt", VString (lit "x"))]) None
             [EvResponse 200; EvData (string_chunk (lit "{}")); EvEnd] in
  promise x = Some (Rejected (lit "Refusing to send API key over insecure HTTP. Use HTTPS."))
  /\ trace x = []
  /\ trace (request (platform := Reference.node) insecure_cfg (lit "POST") (lit "/query")
              (VObject [(lit "prompt", VString (lit "x"))]) None) = [].
Proof.
  apply (C1_insecure_scheme_refused_before_io (platform := Reference.node) insecure_cfg
           (lit "POST") (lit "/query") _ None
           {| protocol := lit "http:"; hostname := lit "example.com"; port := [];
              pathname := lit "/query"; search := [] |}).
  - reflexivity.
  - vm_compute. reflexivity.
  - vm_compute. discriminate.
Defined.

(** An unset or empty [CLOUD_AGENT_API_KEY] leaves [API_KEY] empty. *)
Lemma load_config_without_key (url : option JSString) (ver : JSString) :
  API_KEY (load_config {| CLOUD_AGENT_API_KEY := None; CLOUD_AGENT_URL := url |} ver) = []
  /\ API_KEY (load_config {| CLOUD_AGENT_API_KEY := Some []; CLOUD_AGENT_URL := url |} ver) = [].
Proof. split; reflexivity. Qed.



(** *** The size ceiling *)

Lemma total_length_app (a b : list Chunk) :
  total_length (a ++ b) = total_length a + total_length b.
Proof. induction a as [|c a IH]; simpl; [reflexivity|]. rewrite IH. lia. Qed.

Lemma chunks_text_app (a b : list Chunk) :
  chunks_text (a ++ b) = chunks_text a ++ chunks_text b.
Proof. unfold chunks_text. apply flat_map_app. Qed.

Section CeilingFacts.
Context {platform : Platform}.

Lemma deliver_within_ceiling (x : Exchange) (ev : NetEvent) :
  within_ceiling x -> within_ceiling (deliver x ev).
Proof.
  intros Hx. unfold deliver.
  destruct (live x) eqn:Hlive; [|exact Hx].
  destruct (res x) as [r0|] eqn:Hres.
  - destruct (Hx r0 Hres) as (kept & Hdata & Hle & Hsize).
    specialize (Hsize Hlive).
    destruct ev as [status|c| |m|]; [exact Hx| | | |].
    + unfold on_data. rewrite Hres.
      destruct (MAX_RESPONSE_SIZE <? size r0 + c_length c) eqn:Hcmp.
      * intros r. rewrite settle_res, settle_live. simpl. intros Hr. injection Hr as <-.
        exists kept. simpl. repeat split; [assumption..|discriminate].
      * apply N.ltb_ge in Hcmp. intros r. simpl. intros Hr. injection Hr as <-.
        exists (kept ++ [c]). simpl.
        rewrite chunks_text_app, total_length_app, Hdata, Hsize. simpl.
        rewrite app_nil_r, N.add_0_r. rewrite Hsize in Hcmp.
        repeat split; assumption.
    + intros r. simpl. unfold on_end. rewrite Hres, settle_res, Hres.
      intros Hr. injection Hr as <-.
      exists kept. repeat split; [assumption..|discriminate].
    + intros r. simpl. unfold on_error. rewrite settle_res, Hres.
      intros Hr. injection Hr as <-.
      exists kept. repeat split; [assumption..|discriminate].
    + intros r. unfold on_timeout. rewrite settle_res, settle_live. simpl.
      rewrite Hres. intros Hr. injection Hr as <-.
      exists kept. repeat split; [assumption..|discriminate].
  - destruct ev as [status|c| |m|].
    + intros r. simpl. intros Hr. injection Hr as <-.
      exists []. repeat split; simpl; try reflexivity. apply N.le_0_l.
    + unfold on_data. rewrite Hres. exact Hx.
    + exact Hx.
    + intros r. simpl. unfold on_error. rewrite settle_res, Hres. discriminate.
    + intros r. unfold on_timeout. rewrite settle_res. simpl. rewrite Hres. discriminate.
Qed.

Lemma run_events_within_ceiling (script : list NetEvent) (x : Exchange) :
  within_ceiling x -> within_ceiling (run_events script x).
Proof.
  revert x. induction script as [|ev script IH]; intros x Hx; [exact Hx|].
  apply (IH (deliver x ev)). now apply deliver_within_ceiling.
Qed.

Lemma exchange_within_ceiling cfg method urlPath body timeout script :
  within_ceiling (exchange cfg method urlPath body timeout script).
Proof.
  apply run_events_within_ceiling. unfold within_ceiling, request.
  destruct (URL_parse (BASE_URL cfg ++ urlPath)) as [parsed|]; [|simpl; discriminate].
  destruct (negb (str_eqb (protocol parsed) (lit "https:")) && str_truthy (API_KEY cfg));
    [simpl; discriminate|].
  match goal with |- context [http_request_throws ?o] => destruct (http_request_throws o) end;
    simpl; discriminate.
Qed.

(** A chunk that fits is appended and counted; the promise stays pending. *)
Lemma on_data_fits (x : Exchange) (r : Response) (c : Chunk) :
  res x = Some r ->
  size r + c_length c <= MAX_RESPONSE_SIZE ->
  on_data c x = with_res {| statusCode := statusCode r;
                            data := data r ++ c_text c;
                            size := size r + c_length c |} x.
Proof.
  intros Hres Hle. unfold on_data. rewrite Hres.
  apply N.ltb_ge in Hle. rewrite Hle. reflexivity.
Qed.

(** The ['data'] listener alone keeps [data] under the ceiling, also on a
    client that would go on delivering chunks after [req.destroy()]. *)
Lemma on_data_holds_at_most_ceiling (x : Exchange) (r : Response) (c : Chunk) :
  res x = Some r -> holds_at_most_ceiling r ->
  exists r', res (on_data c x) = Some r' /\ holds_at_most_ceiling r'.
Proof.
  intros Hres (kept & Hdata & Hle & Hsize). unfold on_data. rewrite Hres.
  destruct (MAX_RESPONSE_SIZE <? size r + c_length c) eqn:Hcmp.
  - rewrite settle_res. eexists. split; [reflexivity|].
    exists kept. cbn [data size]. repeat split; [assumption..|lia].
  - apply N.ltb_ge in Hcmp. eexists. split; [reflexivity|].
    exists (kept ++ [c]). cbn [data size].
    rewrite chunks_text_app, total_length_app, Hdata. cbn [chunks_text flat_map total_length fold_right].
    rewrite app_nil_r, N.add_0_r. repeat split; lia.
Qed.

End CeilingFacts.

Lemma string_chunk_repeat_length (a n : N) :
  c_length (string_chunk (repeat a (N.to_nat n))) = n.
Proof.
  unfold string_chunk. cbn [c_length]. rewrite repeat_length. apply N2Nat.id.
Qed.

(** *** Timeout *)

(** C7. When the ['timeout'] event fires on a connection that is still open
    (the response has not ended), [req.destroy()] is called and the promise
    is rejected with "Request timed out"; whatever the network delivers
    afterwards leaves the exchange, and so [data] and [size], as they
    were. *)
Theorem C7_timeout_aborts_and_rejects
    {platform : Platform} (cfg : Config) (method urlPath : JSString) (body : JSValue)
    (timeout : option N) (script later : list NetEvent) :
  live (exchange cfg method urlPath body timeout script) = true ->
  let x := exchange cfg method urlPath body timeout script in
  let x' := deliver x EvTimeout in
  trace x' = trace x ++ [ReqDestroy]
  /\ promise x' = Some (Rejected (lit "Request timed out"))
  /\ res x' = res x
  /\ run_events later x' = x'
  /\ promise (exchange cfg method urlPath body timeout (script ++ EvTimeout :: later))
     = Some (Rejected (lit "Request timed out")).
Proof.
  intros Hlive x x'.
  pose proof (exchange_pending_while_live cfg method urlPath body timeout script Hlive)
    as Hpending.
  assert (Hx' : x' = on_timeout x).
  { subst x' x. unfold deliver. rewrite Hlive. reflexivity. }
  assert (Hclosed : run_events later x' = x').
  { apply run_events_closed. rewrite Hx'. unfold on_timeout. rewrite settle_live.
    reflexivity. }
  assert (Hpromise : promise x' = Some (Rejected (lit "Request timed out"))).
  { rewrite Hx'. unfold on_timeout. apply settle_pending. exact Hpending. }
  split; [rewrite Hx'; unfold on_timeout; rewrite settle_trace; reflexivity|].
  split; [exact Hpromise|].
  split; [rewrite Hx'; unfold on_timeout; rewrite settle_res; reflexivity|].
  split; [exact Hclosed|].
  unfold exchange. rewrite run_events_app. simpl.
  fold (exchange cfg method urlPath body timeout script). fold x. fold x'.
  change (fold_left deliver later x') with (run_events later x').
  rewrite Hclosed. exact Hpromise.
Qed.

Lemma C7_witness :
  let x := exchange (platform := Reference.node) test_cfg (lit "POST") (lit "/query")
             (VObject [(lit "prompt", VString (lit "x"))]) None [] in
  let x' := deliver (platform := Reference.node) x EvTimeout in
  let later := [EvResponse 200; EvData (string_chunk (lit "{}")); EvEnd] in
  trace x' = trace x ++ [ReqDestroy]
  /\ promise x' = Some (Rejected (lit "Request timed out"))
  /\ res x' = res x
  /\ run_events (platform := Reference.node) later x' = x'
  /\ promise (exchange (platform := Reference.node) test_cfg (lit "POST") (lit "/query")
                (VObject [(lit "prompt", VString (lit "x"))]) None
                ([] ++ EvTimeout :: later))
     = Some (Rejected (lit "Request timed out")).
Proof.
  apply (C7_timeout_aborts_and_rejects (platform := Reference.node) test_cfg
           (lit "POST") (lit "/query") (VObject [(lit "prompt", VString (lit "x"))]) None
           [] [EvResponse 200; EvData (string_chunk (lit "{}")); EvEnd]).
  vm_compute. reflexivity.
Defined.

(** *** The end of the response *)

Section EndFacts.
Context {platform : Platform}.

(** A response delivered in full: its chunks, when they fit under the
    ceiling, are accumulated in order. *)
Lemma run_data_fits (cs : list Chunk) (x : Exchange) (r : Response) :
  live x = true -> res x = Some r ->
  size r + total_length cs <= MAX_RESPONSE_SIZE ->
  run_events (List.map EvData cs) x
  = with_res {| statusCode := statusCode r;
                data := data r ++ chunks_text cs;
                size := size r + total_length cs |} x.
Proof.
  revert x r. induction cs as [|c cs IH]; intros x r Hlive Hres Hle.
  - destruct x as [tr p rs lv], r as [st d sz]. simpl in *. subst.
    unfold with_res. simpl. rewrite app_nil_r, N.add_0_r. reflexivity.
  - simpl in Hle. unfold run_events. simpl. unfold deliver at 2. rewrite Hlive.
    rewrite (on_data_fits x r c Hres) by lia.
    change (fold_left deliver (List.map EvData cs) ?y) with (run_events (List.map EvData cs) y).
    rewrite (IH _ {| statusCode := statusCode r; data := data r ++ c_text c;
                     size := size r + c_length c |}); simpl; try assumption; try reflexivity;
      [|lia].
    unfold with_res. simpl. rewrite <- app_assoc, N.add_assoc. reflexivity.
Qed.

Lemma deliver_end (x : Exchange) (r : Response) :
  live x = true -> res x = Some r -> promise x = None ->
  promise (deliver x EvEnd)
  = Some (match on_end_try r with Some o => o | None => on_end_catch r end).
Proof.
  intros Hlive Hres Hpending. unfold deliver. rewrite Hlive, Hres. simpl.
  unfold on_end. rewrite Hres. apply settle_pending. exact Hpending.
Qed.

(** A response delivered in full, status then chunks then end, on a request
    that was sent. *)
Lemma complete_response_outcome (cfg : Config) (method urlPath : JSString)
    (body : JSValue) (timeout : option N) (status : N) (cs : list Chunk) :
  live (request cfg method urlPath body timeout) = true ->
  total_length cs <= MAX_RESPONSE_SIZE ->
  let r := {| statusCode := status; data := chunks_text cs; size := total_length cs |} in
  promise (exchange cfg method urlPath body timeout
             (EvResponse status :: List.map EvData cs ++ [EvEnd]))
  = Some (match on_end_try r with Some o => o | None => on_end_catch r end).
Proof.
  intros Hlive Hle r.
  pose proof (request_pending_while_live cfg method urlPath body timeout Hlive) as Hpending.
  assert (Hres : res (request cfg method urlPath body timeout) = None).
  { revert Hlive. unfold request.
    destruct (URL_parse (BASE_URL cfg ++ urlPath)) as [parsed|]; [|discriminate].
    destruct (negb (str_eqb (protocol parsed) (lit "https:")) && str_truthy (API_KEY cfg));
      [discriminate|].
    match goal with |- context [http_request_throws ?o] => destruct (http_request_throws o) end;
      [discriminate|reflexivity]. }
  unfold exchange.
  change (EvResponse status :: List.map EvData cs ++ [EvEnd])
    with ([EvResponse status] ++ List.map EvData cs ++ [EvEnd]).
  rewrite !run_events_app.
  set (x0 := request cfg method urlPath body timeout) in *.
  assert (H1 : run_events [EvResponse status] x0
               = with_res {| statusCode := status; data := []; size := 0 |} x0).
  { unfold run_events. cbn [fold_left]. unfold deliver. rewrite Hlive, Hres. reflexivity. }
  rewrite H1.
  rewrite (run_data_fits cs _ {| statusCode := status; data := []; size := 0 |});
    [|exact Hlive|reflexivity|cbn [size]; lia].
  cbn [statusCode data size app]. rewrite N.add_0_l.
  change (run_events [EvEnd] ?y) with (deliver y EvEnd).
  apply deliver_end; [exact Hlive|reflexivity|exact Hpending].
Qed.

(** The ['end'] listener on a body that parses, at a status of 400 or more:
    a truthy [error] member gives the message, converted to a string. *)
Lemma on_end_try_error_member (r : Response) (json e : JSValue) (m : JSString) :
  JSON_parse (data r) = Some json ->
  400 <= statusCode r ->
  get_member json (lit "error") = inr e ->
  truthy e = true ->
  ToString e = Some m ->
  on_end_try r = Some (Rejected m).
Proof.
  intros Hparse Hstatus Hget Htruthy Hstr. unfold on_end_try.
  apply N.leb_le in Hstatus. rewrite Hparse, Hstatus, Hget.
  unfold js_or. rewrite Htruthy, Hstr. reflexivity.
Qed.

(** Without a truthy [error] member the message is ["HTTP <code>"]. *)
Lemma on_end_try_generic (r : Response) (json e : JSValue) :
  JSON_parse (data r) = Some json ->
  400 <= statusCode r ->
  get_member json (lit "error") = inr e ->
  truthy e = false ->
  on_end_try r = Some (Rejected (lit "HTTP " ++ dec (statusCode r))).
Proof.
  intros Hparse Hstatus Hget Htruthy. unfold on_end_try.
  apply N.leb_le in Hstatus. rewrite Hparse, Hstatus, Hget.
  unfold js_or. rewrite Htruthy. reflexivity.
Qed.

(** Every parsed value other than [null] has an [error] member to read. *)
Lemma get_member_parsed (json : JSValue) (name : JSString) :
  json <> VNull -> json <> VUndefined -> exists e, get_member json name = inr e.
Proof.
  intros Hnull Hundef. destruct json; simpl; eauto; contradiction.
Qed.

End EndFacts.

Example unauthorized_400 :
  promise (exchange (platform := Reference.node) test_cfg (lit "POST") (lit "/ask")
             (VObject [(lit "repo", VString (lit "a/b"))]) None
             [EvResponse 400; EvData (string_chunk unauthorized_body); EvEnd])
  = Some (Rejected (lit "Unauthorized")).
Proof. vm_compute. reflexivity. Qed.

Example empty_object_400 :
  promise (exchange (platform := Reference.node) test_cfg (lit "POST") (lit "/ask")
             (VObject [(lit "repo", VString (lit "a/b"))]) None
             [EvResponse 400; EvData (string_chunk (lit "{}")); EvEnd])
  = Some (Rejected (lit "HTTP 400")).
Proof. vm_compute. reflexivity. Qed.

(** C4. A status-400 response whose body is the JSON text [null]: the body
    parses, reading [json.error] throws inside the [try] block, and the
    [catch] block written for bodies that do not parse rejects with
    "HTTP 400: null" where a parsed body without an [error] member is meant
    to give "HTTP 400". *)
Theorem C4_null_body_message :
  JSON_parse (lit "null") = Some VNull
  /\ (forall platform : Platform,
        on_end_try (platform := platform)
          {| statusCode := 400; data := lit "null"; size := 4 |} = None)
  /\ promise (exchange (platform := Reference.node) test_cfg (lit "POST") (lit "/ask")
                (VObject [(lit "repo", VString (lit "a/b"))]) None
                [EvResponse 400; EvData (string_chunk (lit "null")); EvEnd])
     = Some (Rejected (lit "HTTP 400: null"))
  /\ promise (exchange (platform := Reference.node) test_cfg (lit "POST") (lit "/ask")
                (VObject [(lit "repo", VString (lit "a/b"))]) None
                [EvResponse 400; EvData (string_chunk (lit "null")); EvEnd])
     <> Some (Rejected (lit "HTTP 400")).
Proof.
  split; [vm_compute; reflexivity|].
  split; [intros platform; reflexivity|].
  split; [vm_compute; reflexivity|].
  vm_compute. discriminate.
Qed.

(** C5. When the response ends with a body that does not parse as JSON and a
    status of 400 or more, the promise is rejected with "HTTP <code>: "
    followed by the first 300 code units of the body (the whole body when it
    is shorter). *)
Theorem C5_unparsed_error_body_truncated
    {platform : Platform} (cfg : Config) (method urlPath : JSString) (body : JSValue)
    (timeout : option N) (script : list NetEvent) (r : Response) :
  live (exchange cfg method urlPath body timeout script) = true ->
  res (exchange cfg method urlPath body timeout script) = Some r ->
  JSON_parse (data r) = None ->
  400 <= statusCode r ->
  promise (exchange cfg method urlPath body timeout (script ++ [EvEnd]))
  = Some (Rejected (lit "HTTP " ++ dec (statusCode r) ++ lit ": " ++ slice0 300 (data r)))
  /\ List.length (slice0 300 (data r)) = Nat.min 300 (List.length (data r)).
Proof.
  intros Hlive Hres Hparse Hstatus.
  split; [|apply length_firstn].
  unfold exchange. rewrite run_events_app.
  fold (exchange cfg method urlPath body timeout script).
  change (run_events [EvEnd] ?y) with (deliver y EvEnd).
  rewrite (deliver_end _ r Hlive Hres
             (exchange_pending_while_live cfg method urlPath body timeout script Hlive)).
  unfold on_end_try, on_end_catch. rewrite Hparse.
  apply N.leb_le in Hstatus. rewrite Hstatus. reflexivity.
Qed.

Lemma C5_witness :
  promise (exchange (platform := Reference.node) test_cfg (lit "GET") (lit "/api/usage")
             VUndefined None
             ([EvResponse 500; EvData (string_chunk (repeat 120 1000))] ++ [EvEnd]))
  = Some (Rejected (lit "HTTP 500: " ++ repeat 120 300))
  /\ List.length (slice0 300 (repeat 120 1000)) = 300%nat.
Proof.
  apply (C5_unparsed_error_body_truncated (platform := Reference.node) test_cfg
           (lit "GET") (lit "/api/usage") VUndefined None
           [EvResponse 500; EvData (string_chunk (repeat 120 1000))]
           {| statusCode := 500; data := repeat 120 1000; size := 1000 |}).
  - vm_compute. reflexivity.
  - vm_compute. reflexivity.
  - vm_compute. reflexivity.
  - vm_compute. discriminate.
Defined.

(** C6. When the response ends with a body that does not parse as JSON and a
    status below 400, the promise is resolved with the accumulated text
    itself. *)
Theorem C6_unparsed_success_body_is_payload
    {platform : Platform} (cfg : Config) (method urlPath : JSString) (body : JSValue)
    (timeout : option N) (script : list NetEvent) (r : Response) :
  live (exchange cfg method urlPath body timeout script) = true ->
  res (exchange cfg method urlPath body timeout script) = Some r ->
  JSON_parse (data r) = None ->
  statusCode r < 400 ->
  promise (exchange cfg method urlPath body timeout (script ++ [EvEnd]))
  = Some (Resolved (VString (data r))).
Proof.
  intros Hlive Hres Hparse Hstatus.
  unfold exchange. rewrite run_events_app.
  fold (exchange cfg method urlPath body timeout script).
  change (run_events [EvEnd] ?y) with (deliver y EvEnd).
  rewrite (deliver_end _ r Hlive Hres
             (exchange_pending_while_live cfg method urlPath body timeout script Hlive)).
  unfold on_end_try, on_end_catch. rewrite Hparse.
  apply N.leb_gt in Hstatus. rewrite Hstatus. reflexivity.
Qed.

Lemma C6_witness :
  promise (exchange (platform := Reference.node) test_cfg (lit "GET") (lit "/api/usage")
             VUndefined None
             ([EvResponse 200; EvData (string_chunk (lit "plain text"))] ++ [EvEnd]))
  = Some (Resolved (VString (lit "plain text"))).
Proof.
  apply (C6_unparsed_success_body_is_payload (platform := Reference.node) test_cfg
           (lit "GET") (lit "/api/usage") VUndefined None
           [EvResponse 200; EvData (string_chunk (lit "plain text"))]
           {| statusCode := 200; data := lit "plain text"; size := 10 |}).
  - vm_compute. reflexivity.
  - vm_compute. reflexivity.
  - vm_compute. reflexivity.
  - vm_compute. reflexivity.
Defined.

(** ** Properties of the call gate *)

(** *** The route of [run_playbook] *)

Lemma hex_digit_upper (d : N) : d < 16 -> is_hex_upper (hex_digit d) = true.
Proof.
  intros Hd. unfold is_hex_upper, in_range, hex_digit.
  destruct (N.ltb_spec d 10).
  - apply orb_true_iff. left. apply andb_true_iff. split; apply N.leb_le; lia.
  - apply orb_true_iff. right. apply andb_true_iff. split; apply N.leb_le; lia.
Qed.

Lemma percent_bytes_escaped (bs : list N) : Forall escaped_unit (percent_bytes bs).
Proof.
  induction bs as [|b bs IH]; [constructor|].
  unfold percent_bytes. cbn [flat_map]. unfold percent_byte. cbn [app].
  constructor; [right; left; reflexivity|].
  constructor; [right; right; apply hex_digit_upper, N.mod_lt; discriminate|].
  constructor; [right; right; apply hex_digit_upper, N.mod_lt; discriminate|].
  exact IH.
Qed.

Lemma encodeURIComponent_escaped (n : nat) :
  forall s e, (List.length s <= n)%nat ->
    encodeURIComponent s = Some e -> Forall escaped_unit e.
Proof.
  induction n as [|n IH]; intros s e Hlen Henc.
  - destruct s; [|simpl in Hlen; lia]. injection Henc as <-. constructor.
  - destruct s as [|c rest]; [injection Henc as <-; constructor|].
    cbn [List.length] in Hlen. cbn [encodeURIComponent] in Henc.
    destruct (uri_unescaped c) eqn:Hun.
    + destruct (encodeURIComponent rest) as [e'|] eqn:Hrest; [|discriminate].
      injection Henc as <-. constructor; [left; exact Hun|].
      apply (IH rest); [lia|exact Hrest].
    + destruct (is_low_surrogate c); [discriminate|].
      destruct (is_high_surrogate c).
      * destruct rest as [|d rest']; [discriminate|].
        destruct (is_low_surrogate d); [|discriminate].
        destruct (encodeURIComponent rest') as [e'|] eqn:Hrest; [|discriminate].
        injection Henc as <-. apply Forall_app. split; [apply percent_bytes_escaped|].
        apply (IH rest'); [cbn [List.length] in Hlen; lia|exact Hrest].
      * destruct (encodeURIComponent rest) as [e'|] eqn:Hrest; [|discriminate].
        injection Henc as <-. apply Forall_app. split; [apply percent_bytes_escaped|].
        apply (IH rest); [lia|exact Hrest].
Qed.

(** An encoded slug holds neither a slash nor a space. *)
Lemma encodeURIComponent_no_slash_no_space (s e : JSString) :
  encodeURIComponent s = Some e -> ~ In 47 e /\ ~ In 32 e.
Proof.
  intros Henc.
  pose proof (encodeURIComponent_escaped (List.length s) s e (Nat.le_refl _) Henc) as Hall.
  rewrite Forall_forall in Hall.
  split; intros Hin; destruct (Hall _ Hin) as [H|[H|H]]; vm_compute in H; discriminate.
Qed.

(** With an API key, [run_playbook] awaits [request] on the route
    ["/api/playbooks/" + encodeURIComponent(slug) + "/run"]; a slug with an
    unpaired surrogate makes no call. *)
Lemma run_playbook_route {platform : Platform} (cfg : Config) (slug repo : JSString)
    (inputs : option (list (JSString * JSString))) :
  str_truthy (API_KEY cfg) = true ->
  match encodeURIComponent slug with
  | Some encoded =>
      (exists body k,
          handle cfg (run_playbook slug repo inputs)
          = Await (lit "POST") (lit "/api/playbooks/" ++ encoded ++ lit "/run") body k)
      /\ ~ In 47 encoded /\ ~ In 32 encoded
  | None =>
      handle cfg (run_playbook slug repo inputs) = Return (error_text (lit "URI malformed"))
  end.
Proof.
  intros Hkey. cbn [handle]. unfold handle_run_playbook. rewrite Hkey. cbn [negb].
  destruct (encodeURIComponent slug) as [encoded|] eqn:Henc; [|reflexivity].
  split; [eauto|]. now apply encodeURIComponent_no_slash_no_space with (s := slug).
Qed.

Example playbook_slug_example :
  encodeURIComponent (lit "my playbook/v2") = Some (lit "my%20playbook%2Fv2").
Proof. vm_compute. reflexivity. Qed.

(** C8. The slug [".."]: [encodeURIComponent] leaves it as it is, the route
    handed to [request] is ["/api/playbooks/../run"], and the URL parser
    removes the dot segment, so the path of the request that is sent is
    ["/api/run"], outside [/api/playbooks/<slug>/run]. *)
Theorem C8_dot_slug_request_path :
  encodeURIComponent (lit "..") = Some (lit "..")
  /\ (exists body k,
         handle (platform := Reference.node) test_cfg
           (run_playbook (lit "..") (lit "a/b") None)
         = Await (lit "POST") (lit "/api/playbooks/../run") body k)
  /\ (exists opts rest,
         fst (invoke (platform := Reference.node) test_cfg
                (run_playbook (lit "..") (lit "a/b") None) [])
         = HttpRequest true opts :: rest
         /\ o_path opts = lit "/api/run"
         /\ forall encoded, o_path opts <> lit "/api/playbooks/" ++ encoded ++ lit "/run").
Proof.
  split; [vm_compute; reflexivity|].
  split; [eexists; eexists; reflexivity|].
  eexists; eexists. split; [vm_compute; reflexivity|].
  split; [reflexivity|].
  intros encoded H. vm_compute in H. discriminate H.
Qed.

(** *** The credential check *)

Lemma env_or_set (v fallback : JSString) : v <> [] -> env_or (Some v) fallback = v.
Proof. intros Hv. destruct v; [contradiction|reflexivity]. Qed.

Lemma nonempty_truthy (s : JSString) : s <> [] -> str_truthy s = true.
Proof. intros Hs. destruct s; [contradiction|reflexivity]. Qed.

Lemma authorization_header (key ver : JSString) :
  str_truthy key = true ->
  In (lit "Authorization", lit "Bearer " ++ key) (headers_for key ver).
Proof.
  intros Hkey. unfold headers_for. rewrite Hkey. apply in_or_app. right. left. reflexivity.
Qed.

Lemma handle_not_noKeyError {platform : Platform} (cfg : Config) (call : ToolCall) :
  str_truthy (API_KEY cfg) = true -> handle cfg call <> Return noKeyError.
Proof.
  intros Hkey.
  destruct call; cbn [handle];
    unfold handle_run_task, handle_review_pr, handle_ask_codebase,
      handle_generate_tests, handle_security_scan, handle_list_sessions,
      handle_list_playbooks, handle_run_playbook, handle_get_usage;
    rewrite Hkey; cbn [negb]; try discriminate.
  - destruct (negb (truthy (js_or (optional file) (optional feature))));
      [|discriminate].
    intros H. injection H as H. vm_compute in H. discriminate.
  - destruct (encodeURIComponent slug); [discriminate|].
    intros H. injection H as H. vm_compute in H. discriminate.
Qed.

(** *** The target check of [generate_tests] *)

Lemma target_truthy (file feature : option JSString) :
  truthy (js_or (optional file) (optional feature)) = given file || given feature.
Proof.
  destruct file as [[|c f]|], feature as [[|d g]|]; reflexivity.
Qed.

(** C10, as stated, fails when [file] is provided as the empty string and
    [feature] is absent: the handler returns the fixed error and never
    awaits [request]. *)
Lemma C10_counterexample :
  handle (platform := Reference.node) test_cfg (generate_tests (lit "a/b") (Some []) None)
  = Return provide_target_error
  /\ ~ (exists method urlPath body k,
           handle (platform := Reference.node) test_cfg
             (generate_tests (lit "a/b") (Some []) None)
           = Await method urlPath body k).
Proof.
  split; [reflexivity|]. intros (method & urlPath & body & k & H). discriminate H.
Qed.

(** C10 (amended). With an API key configured, [generate_tests] returns the
    fixed error text, without awaiting [request] and so without any call on
    the HTTP client, when neither [file] nor [feature] is a non-empty
    string; otherwise it awaits [request("POST", "/test", {file, feature,
    repo})]. *)
Theorem C10_generate_tests_target_check
    {platform : Platform} (cfg : Config) (repo : JSString)
    (file feature : option JSString) (script : list NetEvent) :
  str_truthy (API_KEY cfg) = true ->
  if given file || given feature then
    handle cfg (generate_tests repo file feature)
    = Await (lit "POST") (lit "/test")
        (VObject [(lit "file", optional file);
                  (lit "feature", optional feature);
                  (lit "repo", VString repo)])
        (on_outcome task_summary)
  else
    handle cfg (generate_tests repo file feature) = Return provide_target_error
    /\ invoke cfg (generate_tests repo file feature) script
       = ([], Some provide_target_error).
Proof.
  intros Hkey.
  assert (H : handle cfg (generate_tests repo file feature)
              = if given file || given feature
                then Await (lit "POST") (lit "/test")
                       (VObject [(lit "file", optional file);
                                 (lit "feature", optional feature);
                                 (lit "repo", VString repo)])
                       (on_outcome task_summary)
                else Return provide_target_error).
  { cbn [handle]. unfold handle_generate_tests. rewrite Hkey. cbn [negb].
    rewrite target_truthy. destruct (given file || given feature); reflexivity. }
  unfold invoke. rewrite H. destruct (given file || given feature); [reflexivity|].
  split; reflexivity.
Qed.

Lemma C10_witness :
  handle (platform := Reference.node) test_cfg
    (generate_tests (lit "a/b") None (Some (lit "user authentication")))
  = Await (lit "POST") (lit "/test")
      (VObject [(lit "file", VUndefined);
                (lit "feature", VString (lit "user authentication"));
                (lit "repo", VString (lit "a/b"))])
      (on_outcome (task_summary (platform := Reference.node)))
  /\ handle (platform := Reference.node) test_cfg (generate_tests (lit "a/b") None None)
     = Return provide_target_error
  /\ invoke (platform := Reference.node) test_cfg (generate_tests (lit "a/b") None None)
       [EvResponse 200; EvEnd]
     = ([], Some provide_target_error).
Proof.
  split.
  - exact (C10_generate_tests_target_check (platform := Reference.node) test_cfg (lit "a/b")
             None (Some (lit "user authentication")) [] eq_refl).
  - exact (C10_generate_tests_target_check (platform := Reference.node) test_cfg (lit "a/b")
             None None [EvResponse 200; EvEnd] eq_refl).
Defined.

(** ** Further properties of the transport *)

Section OutcomeFacts.
Context {platform : Platform}.

Lemma deliver_keeps_outcome (x : Exchange) (ev : NetEvent) (o : Outcome) :
  promise x = Some o -> promise (deliver x ev) = Some o.
Proof.
  intros Hx. unfold deliver. destruct (live x); [|exact Hx].
  destruct (listeners_keep_outcome x o {| c_length := 0; c_text := [] |} [] Hx)
    as (_ & Hend & _ & Htimeout).
  destruct ev as [status|c| |m|].
  - destruct (res x); exact Hx.
  - exact (proj1 (listeners_keep_outcome x o c [] Hx)).
  - destruct (res x); [exact Hend|exact Hx].
  - exact (proj1 (proj2 (proj2 (listeners_keep_outcome x o {| c_length := 0; c_text := [] |} m Hx)))).
  - exact Htimeout.
Qed.

Lemma run_events_keep_outcome (script : list NetEvent) (x : Exchange) (o : Outcome) :
  promise x = Some o -> promise (run_events script x) = Some o.
Proof.
  revert x. induction script as [|ev script IH]; intros x Hx; [exact Hx|].
  apply (IH (deliver x ev)). now apply deliver_keeps_outcome.
Qed.

Lemma deliver_trace (x : Exchange) (ev : NetEvent) :
  trace (deliver x ev) = trace x
  \/ (live x = true /\ live (deliver x ev) = false
      /\ trace (deliver x ev) = trace x ++ [ReqDestroy]).
Proof.
  unfold deliver. destruct (live x) eqn:Hlive; [|left; reflexivity].
  destruct ev as [status|c| |m|].
  - left. destruct (res x); reflexivity.
  - unfold on_data. destruct (res x) as [r|]; [|left; reflexivity].
    destruct (MAX_RESPONSE_SIZE <? size r + c_length c); [|left; reflexivity].
    right. rewrite settle_live, settle_trace. repeat split.
  - left. destruct (res x); [|reflexivity]. cbn [trace close]. unfold on_end.
    destruct (res x); [apply settle_trace|reflexivity].
  - left. cbn [trace close]. unfold on_error. apply settle_trace.
  - right. unfold on_timeout. rewrite settle_live, settle_trace. repeat split.
Qed.

(** Over a whole script [req.destroy()] is called at most once, and nothing
    else is ever added to the calls [request] made. *)
Lemma run_events_trace (script : list NetEvent) (x : Exchange) :
  trace (run_events script x) = trace x
  \/ (live x = true /\ trace (run_events script x) = trace x ++ [ReqDestroy]).
Proof.
  revert x. induction script as [|ev script IH]; intros x; [left; reflexivity|].
  change (run_events (ev :: script) x) with (run_events script (deliver x ev)).
  destruct (deliver_trace x ev) as [Hsame|(Hlive & Hclosed & Hdestroy)].
  - destruct (IH (deliver x ev)) as [H|[Hl H]].
    + left. congruence.
    + right. split; [|congruence].
      destruct (live x) eqn:E; [reflexivity|].
      unfold deliver in Hl. rewrite E in Hl. congruence.
  - right. split; [exact Hlive|].
    rewrite (run_events_closed script _ Hclosed). exact Hdestroy.
Qed.

End OutcomeFacts.

(** X1. The result of a call is final: once the promise has settled, no
    further event of the network changes its outcome. *)
Theorem X1_outcome_is_final
    {platform : Platform} (cfg : Config) (method urlPath : JSString) (body : JSValue)
    (timeout : option N) (script later : list NetEvent) (o : Outcome) :
  promise (exchange cfg method urlPath body timeout script) = Some o ->
  promise (exchange cfg method urlPath body timeout (script ++ later)) = Some o.
Proof.
  intros H. unfold exchange. rewrite run_events_app.
  apply run_events_keep_outcome. exact H.
Qed.

Lemma X1_witness :
  promise (exchange (platform := Reference.node) test_cfg (lit "GET") (lit "/api/usage")
             VUndefined None
             ([EvResponse 200; EvData (string_chunk (lit "{}")); EvEnd]
              ++ [EvTimeout; EvError (lit "socket hang up")]))
  = Some (Resolved (VObject [])).
Proof.
  apply (X1_outcome_is_final (platform := Reference.node) test_cfg (lit "GET")
           (lit "/api/usage") VUndefined None).
  vm_compute. reflexivity.
Defined.

(** ** Further properties of the call gate *)

Section HandlerFacts.
Context {platform : Platform}.

(** What every handler that reaches [request] has in common. *)
Lemma handle_await (cfg : Config) (call : ToolCall) (method urlPath : JSString)
    (body : JSValue) (k : Outcome -> JSValue) :
  handle cfg call = Await method urlPath body k ->
  str_truthy (API_KEY cfg) = true
  /\ (exists format, k = on_outcome format)
  /\ ((method = lit "GET" /\ body = VUndefined)
      \/ (method = lit "POST" /\ truthy body = true))
  /\ exists rest, urlPath = 47 :: rest.
Proof.
  destruct call; cbn [handle];
    unfold handle_run_task, handle_review_pr, handle_ask_codebase,
      handle_generate_tests, handle_security_scan, handle_list_sessions,
      handle_list_playbooks, handle_run_playbook, handle_get_usage;
    destruct (str_truthy (API_KEY cfg)); cbn [negb]; try discriminate.
  - intros H; injection H as <- <- <- <-.
    repeat split; [eexists; reflexivity|right; split; reflexivity|eexists; reflexivity].
  - intros H; injection H as <- <- <- <-.
    repeat split; [eexists; reflexivity|right; split; reflexivity|eexists; reflexivity].
  - intros H; injection H as <- <- <- <-.
    repeat split; [eexists; reflexivity|right; split; reflexivity|eexists; reflexivity].
  - destruct (negb (truthy (js_or (optional file) (optional feature)))); [discriminate|].
    intros H; injection H as <- <- <- <-.
    repeat split; [eexists; reflexivity|right; split; reflexivity|eexists; reflexivity].
  - intros H; injection H as <- <- <- <-.
    repeat split; [eexists; reflexivity|right; split; reflexivity|eexists; reflexivity].
  - intros H; injection H as <- <- <- <-.
    repeat split; [eexists; reflexivity|left; split; reflexivity|].
    destruct status; eexists; reflexivity.
  - intros H; injection H as <- <- <- <-.
    repeat split; [eexists; reflexivity|left; split; reflexivity|eexists; reflexivity].
  - destruct (encodeURIComponent slug); [|discriminate].
    intros H; injection H as <- <- <- <-.
    repeat split; [eexists; reflexivity|right; split; reflexivity|eexists; reflexivity].
  - intros H; injection H as <- <- <- <-.
    repeat split; [eexists; reflexivity|left; split; reflexivity|].
    destruct days as [d|]; [destruct (d =? 0)|]; eexists; reflexivity.
Qed.

Lemma request_sent (cfg : Config) (method urlPath : JSString) (body : JSValue)
    (timeout : option N) :
  live (request cfg method urlPath body timeout) = true ->
  res (request cfg method urlPath body timeout) = None
  /\ promise (request cfg method urlPath body timeout) = None.
Proof.
  unfold request.
  destruct (URL_parse (BASE_URL cfg ++ urlPath)) as [parsed|]; [|discriminate].
  destruct (negb (str_eqb (protocol parsed) (lit "https:")) && str_truthy (API_KEY cfg));
    [discriminate|].
  match goal with |- context [http_request_throws ?o] => destruct (http_request_throws o) end;
    [discriminate|]. split; reflexivity.
Qed.

Lemma request_trace_authorized (cfg : Config) (method urlPath : JSString) (body : JSValue) :
  str_truthy (API_KEY cfg) = true ->
  method = lit "GET" \/ method = lit "POST" ->
  Forall (authorized_request cfg) (trace (request cfg method urlPath body None)).
Proof.
  intros Hkey Hmethod. unfold request.
  destruct (URL_parse (BASE_URL cfg ++ urlPath)) as [parsed|]; [|constructor].
  rewrite Hkey.
  destruct (str_eqb (protocol parsed) (lit "https:")); [|constructor].
  cbn [negb andb].
  assert (Hauth : forall opts_port,
             authorized_request cfg
               (HttpRequest true
                  {| o_hostname := hostname parsed; o_port := opts_port;
                     o_path := pathname parsed ++ search parsed; o_method := method;
                     o_headers := headers_for (API_KEY cfg) (version cfg);
                     o_timeout := 600000 |})).
  { intros opts_port. cbn [authorized_request o_headers o_timeout o_method].
    split; [reflexivity|].
    split; [apply authorization_header; exact Hkey|].
    split; [unfold headers_for; apply in_or_app; left; left; reflexivity|].
    split; [unfold headers_for; apply in_or_app; left; right; left; reflexivity|].
    split; [reflexivity|exact Hmethod]. }
  match goal with |- context [http_request_throws ?o] => destruct (http_request_throws o) end.
  - cbn [trace rejected_exchange]. constructor; [apply Hauth|constructor].
  - cbn [trace]. constructor; [apply Hauth|].
    apply Forall_app. split; [destruct (truthy body)|]; repeat constructor.
Qed.

Lemma request_trace_counts (cfg : Config) (method urlPath : JSString) (body : JSValue)
    (timeout : option N) :
  (List.length (filter is_request (trace (request cfg method urlPath body timeout))) <= 1)%nat
  /\ filter is_destroy (trace (request cfg method urlPath body timeout)) = [].
Proof.
  unfold request.
  destruct (URL_parse (BASE_URL cfg ++ urlPath)) as [parsed|]; [|split; [apply Nat.le_0_l|reflexivity]].
  destruct (negb (str_eqb (protocol parsed) (lit "https:")) && str_truthy (API_KEY cfg));
    [split; [apply Nat.le_0_l|reflexivity]|].
  match goal with |- context [http_request_throws ?o] => destruct (http_request_throws o) end;
    cbn [trace rejected_exchange]; [split; [apply Nat.le_refl|reflexivity]|].
  destruct (truthy body); split; try apply Nat.le_refl; reflexivity.
Qed.

End HandlerFacts.

(** X2. Nothing a tool invocation sends leaves over plain HTTP or without
    the credential: every call of [mod.request] it makes is on the [https]
    module, carries [Authorization: Bearer <API_KEY>], the JSON content type
    and the client's user agent, uses the method GET or POST and the default
    timeout of 600000 ms. *)
Theorem X2_invocations_send_only_authorized_https_requests
    {platform : Platform} (cfg : Config) (call : ToolCall) (script : list NetEvent) :
  Forall (authorized_request cfg) (fst (invoke cfg call script)).
Proof.
  unfold invoke. destruct (handle cfg call) as [text|method urlPath body k] eqn:H;
    [constructor|].
  destruct (handle_await cfg call method urlPath body k H) as (Hkey & _ & Hm & _).
  cbn [fst]. unfold exchange.
  assert (Hreq : Forall (authorized_request cfg) (trace (request cfg method urlPath body None))).
  { apply request_trace_authorized; [exact Hkey|]. destruct Hm as [[-> _]|[-> _]]; auto. }
  destruct (run_events_trace script (request cfg method urlPath body None)) as [->|[_ ->]];
    [exact Hreq|].
  apply Forall_app. split; [exact Hreq|]. repeat constructor.
Qed.

(** X3. An invocation makes at most one call of [mod.request] and at most
    one call of [req.destroy()]: there is no retry, whatever the network
    delivers. *)
Theorem X3_at_most_one_request_per_invocation
    {platform : Platform} (cfg : Config) (call : ToolCall) (script : list NetEvent) :
  (List.length (filter is_request (fst (invoke cfg call script))) <= 1)%nat
  /\ (List.length (filter is_destroy (fst (invoke cfg call script))) <= 1)%nat.
Proof.
  unfold invoke. destruct (handle cfg call) as [text|method urlPath body k];
    [split; apply Nat.le_0_l|].
  cbn [fst]. unfold exchange.
  destruct (request_trace_counts cfg method urlPath body None) as [Hreq Hdes].
  destruct (run_events_trace script (request cfg method urlPath body None)) as [->|[_ ->]].
  - split; [exact Hreq|]. rewrite Hdes. apply Nat.le_0_l.
  - rewrite !filter_app, !length_app, Hdes. cbn [filter is_request is_destroy List.length].
    split; [rewrite Nat.add_0_r; exact Hreq|apply Nat.le_refl].
Qed.

Example run_task_sends_one_request :
  List.map is_request
    (fst (invoke (platform := Reference.node) test_cfg (run_task (lit "x")) []))
  = [true; false; false].
Proof. vm_compute. reflexivity. Qed.



(** X5. A network-level failure: when the client emits ['error'] on a
    connection that is still open, the promise is rejected with the
    message of that error, [req.destroy()] is not called, and the tool
    returns "Error: <message>". *)
Theorem X5_network_error_is_reported
    {platform : Platform} (cfg : Config) (call : ToolCall) (script later : list NetEvent)
    (method urlPath : JSString) (body : JSValue) (k : Outcome -> JSValue)
    (message : JSString) :
  handle cfg call = Await method urlPath body k ->
  live (exchange cfg method urlPath body None script) = true ->
  invoke cfg call (script ++ EvError message :: later)
  = (trace (exchange cfg method urlPath body None script),
     Some (VString (lit "Error: " ++ message))).
Proof.
  intros H Hlive. destruct (handle_await cfg call method urlPath body k H)
    as (_ & (format & ->) & _ & _).
  pose proof (exchange_pending_while_live cfg method urlPath body None script Hlive)
    as Hpending.
  unfold invoke. rewrite H. unfold exchange in *. rewrite run_events_app.
  set (x := run_events script (request cfg method urlPath body None)) in *.
  change (run_events (EvError message :: later) x)
    with (run_events later (deliver x (EvError message))).
  assert (Hd : deliver x (EvError message) = close (on_error message x)).
  { unfold deliver. rewrite Hlive. reflexivity. }
  rewrite Hd, run_events_closed by reflexivity.
  cbn [trace promise close]. unfold on_error.
  rewrite settle_trace, (settle_pending _ _ Hpending). reflexivity.
Qed.

Lemma X5_witness :
  invoke (platform := Reference.node) test_cfg (get_usage (Some 30))
    ([] ++ EvError (lit "connect ECONNREFUSED 127.0.0.1:443") :: [EvTimeout])
  = (trace (exchange (platform := Reference.node) test_cfg (lit "GET")
              (lit "/api/usage?days=30") VUndefined None []),
     Some (VString (lit "Error: " ++ lit "connect ECONNREFUSED 127.0.0.1:443"))).
Proof.
  apply (X5_network_error_is_reported (platform := Reference.node) test_cfg
           (get_usage (Some 30)) [] [EvTimeout] (lit "GET") (lit "/api/usage?days=30")
           VUndefined (on_outcome (whole_json (platform := Reference.node)))).
  - reflexivity.
  - vm_compute. reflexivity.
Defined.

(** X6. The route, the body and the formatting of the result do not depend
    on the credential, the base URL or the version: with any two
    configurations that have an API key, a handler does exactly the same. *)
Theorem X6_handlers_do_not_depend_on_the_credential
    {platform : Platform} (cfg cfg' : Config) (call : ToolCall) :
  str_truthy (API_KEY cfg) = true ->
  str_truthy (API_KEY cfg') = true ->
  handle cfg call = handle cfg' call.
Proof.
  intros H H'.
  destruct call; cbn [handle];
    unfold handle_run_task, handle_review_pr, handle_ask_codebase,
      handle_generate_tests, handle_security_scan, handle_list_sessions,
      handle_list_playbooks, handle_run_playbook, handle_get_usage;
    rewrite H, H'; reflexivity.
Qed.

Lemma X6_witness :
  handle (platform := Reference.node) test_cfg (run_playbook (lit "bug-triage") (lit "a/b") None)
  = handle (platform := Reference.node) insecure_cfg
      (run_playbook (lit "bug-triage") (lit "a/b") None).
Proof.
  apply (X6_handlers_do_not_depend_on_the_credential (platform := Reference.node));
    reflexivity.
Defined.

(** X7. A base URL that [new URL] rejects: the promise is rejected by the
    exception before anything is done on the HTTP client, and the tool
    returns "Error: Invalid URL". *)
Theorem X7_invalid_url_fails_before_io
    {platform : Platform} (cfg : Config) (call : ToolCall) (script : list NetEvent)
    (method urlPath : JSString) (body : JSValue) (k : Outcome -> JSValue) :
  handle cfg call = Await method urlPath body k ->
  URL_parse (BASE_URL cfg ++ urlPath) = None ->
  invoke cfg call script = ([], Some (VString (lit "Error: Invalid URL"))).
Proof.
  intros H Hurl. destruct (handle_await cfg call method urlPath body k H)
    as (_ & (format & ->) & _ & _).
  unfold invoke. rewrite H. unfold exchange, request. rewrite Hurl.
  rewrite run_events_closed by reflexivity. reflexivity.
Qed.

Lemma X7_witness :
  invoke (platform := Reference.node) broken_url_cfg (run_task (lit "x"))
    [EvResponse 200; EvEnd]
  = ([], Some (VString (lit "Error: Invalid URL"))).
Proof.
  apply (X7_invalid_url_fails_before_io (platform := Reference.node) broken_url_cfg
           (run_task (lit "x")) _ (lit "POST") (lit "/query")
           (VObject [(lit "prompt", VString (lit "x"))])
           (on_outcome (task_summary (platform := Reference.node)))).
  - reflexivity.
  - vm_compute. reflexivity.
Defined.

(** X8. Without an API key [request] does not refuse plain HTTP: the call
    goes to the module the scheme selects, on the port of the URL or else
    443 for HTTPS and 80 for HTTP, and no [Authorization] header is set. *)
Theorem X8_request_without_key
    {platform : Platform} (cfg : Config) (method urlPath : JSString) (body : JSValue)
    (timeout : option N) (parsed : URL) :
  API_KEY cfg = [] ->
  URL_parse (BASE_URL cfg ++ urlPath) = Some parsed ->
  let isHttps := str_eqb (protocol parsed) (lit "https:") in
  exists opts rest,
    trace (request cfg method urlPath body timeout) = HttpRequest isHttps opts :: rest
    /\ (forall value, ~ In (lit "Authorization", value) (o_headers opts))
    /\ o_port opts = (if str_truthy (port parsed) then PortString (port parsed)
                      else PortNumber (if isHttps then 443 else 80))
    /\ o_path opts = pathname parsed ++ search parsed.
Proof.
  intros Hkey Hurl isHttps. unfold request. rewrite Hurl, Hkey.
  rewrite andb_false_r.
  match goal with |- context [http_request_throws ?o] => destruct (http_request_throws o) end;
    cbn [trace rejected_exchange]; eexists; eexists;
    (split; [reflexivity|]); cbn [o_headers o_port o_path];
    (split; [|split; reflexivity]);
    intros value [Hin|[Hin|[]]]; vm_compute in Hin; discriminate Hin.
Qed.

Lemma X8_witness :
  exists opts rest,
    trace (request (platform := Reference.node) open_http_cfg (lit "GET") (lit "/api/playbooks")
             VUndefined None)
    = HttpRequest false opts :: rest
    /\ (forall value, ~ In (lit "Authorization", value) (o_headers opts))
    /\ o_port opts = PortString (lit "3000")
    /\ o_path opts = lit "/api/playbooks".
Proof.
  exact (X8_request_without_key (platform := Reference.node) open_http_cfg (lit "GET")
           (lit "/api/playbooks") VUndefined None
           {| protocol := lit "http:"; hostname := lit "localhost"; port := lit "3000";
              pathname := lit "/api/playbooks"; search := [] |}
           eq_refl eq_refl).
Defined.

(** ** Further properties of the response handling *)

Section StreamFacts.
Context {platform : Platform}.

Lemma run_response (x : Exchange) (status : N) :
  live x = true -> res x = None ->
  run_events [EvResponse status] x
  = with_res {| statusCode := status; data := []; size := 0 |} x.
Proof.
  intros Hlive Hres. unfold run_events. cbn [fold_left]. unfold deliver.
  rewrite Hlive, Hres. reflexivity.
Qed.

(** Chunks that together exceed the ceiling: the first chunk that takes the
    total above it aborts the exchange, whatever follows. *)
Lemma run_data_overflow (later : list NetEvent) (cs : list Chunk) :
  forall (x : Exchange) (r : Response),
    live x = true -> res x = Some r -> promise x = None ->
    size r <= MAX_RESPONSE_SIZE ->
    MAX_RESPONSE_SIZE < size r + total_length cs ->
    exists kept c rest,
      cs = kept ++ c :: rest
      /\ size r + total_length kept <= MAX_RESPONSE_SIZE
      /\ MAX_RESPONSE_SIZE < size r + total_length kept + c_length c
      /\ run_events (List.map EvData cs ++ later) x
         = settle (Rejected (lit "Response too large"))
             (req_destroy
                (with_res {| statusCode := statusCode r;
                             data := data r ++ chunks_text kept;
                             size := size r + total_length kept + c_length c |} x)).
Proof.
  induction cs as [|c cs IH]; intros x r Hlive Hres Hpending Hsize Hover.
  - cbn [total_length fold_right] in Hover. lia.
  - cbn [total_length fold_right] in Hover. fold (total_length cs) in Hover.
    cbn [List.map app]. 
    change (run_events (EvData c :: List.map EvData cs ++ later) x)
      with (run_events (List.map EvData cs ++ later) (deliver x (EvData c))).
    destruct (N.ltb_spec MAX_RESPONSE_SIZE (size r + c_length c)) as [Hc|Hc].
    + exists [], c, cs. cbn [app total_length fold_right chunks_text flat_map].
      rewrite N.add_0_r, app_nil_r. repeat split; [assumption..|].
      assert (Hd : deliver x (EvData c)
                   = settle (Rejected (lit "Response too large"))
                       (req_destroy
                          (with_res {| statusCode := statusCode r; data := data r;
                                       size := size r + c_length c |} x))).
      { unfold deliver. rewrite Hlive. unfold on_data. rewrite Hres.
        apply N.ltb_lt in Hc. rewrite Hc. reflexivity. }
      rewrite Hd. apply run_events_closed. rewrite settle_live. reflexivity.
    + assert (Hd : deliver x (EvData c)
                   = with_res {| statusCode := statusCode r; data := data r ++ c_text c;
                                 size := size r + c_length c |} x).
      { unfold deliver. rewrite Hlive. apply on_data_fits; assumption. }
      rewrite Hd.
      destruct (IH (with_res {| statusCode := statusCode r; data := data r ++ c_text c;
                                size := size r + c_length c |} x)
                   {| statusCode := statusCode r; data := data r ++ c_text c;
                      size := size r + c_length c |})
        as (kept & c' & rest & Hcs & Hkept & Hc' & Hrun);
        [exact Hlive|reflexivity|exact Hpending|exact Hc|cbn [size]; lia|].
      cbn [size statusCode data] in Hkept, Hc', Hrun.
      exists (c :: kept), c', rest.
      cbn [app total_length fold_right chunks_text flat_map].
      fold (total_length kept). fold (chunks_text kept).
      repeat split; [rewrite Hcs; reflexivity|lia|lia|].
      rewrite Hrun. unfold with_res, req_destroy, settle. cbn [promise trace res live].
      rewrite Hpending, <- app_assoc.
      replace (size r + c_length c + total_length kept + c_length c')
        with (size r + (c_length c + total_length kept) + c_length c') by lia.
      reflexivity.
Qed.

End StreamFacts.

(** X9. A response whose chunks add up to at most 5242880 bytes (the bound
    included) is taken in whole: after the last chunk [data] is the text of
    all of them in order, [size] their total, the connection is open, the
    promise pending, and [req.destroy()] has not been called. *)
Theorem X9_stream_within_ceiling_is_accumulated
    {platform : Platform} (cfg : Config) (method urlPath : JSString) (body : JSValue)
    (timeout : option N) (status : N) (cs : list Chunk) :
  live (request cfg method urlPath body timeout) = true ->
  total_length cs <= MAX_RESPONSE_SIZE ->
  exchange cfg method urlPath body timeout (EvResponse status :: List.map EvData cs)
  = with_res {| statusCode := status; data := chunks_text cs; size := total_length cs |}
      (request cfg method urlPath body timeout).
Proof.
  intros Hlive Hle. destruct (request_sent cfg method urlPath body timeout Hlive) as [Hres _].
  unfold exchange.
  change (EvResponse status :: List.map EvData cs)
    with ([EvResponse status] ++ List.map EvData cs).
  rewrite run_events_app, (run_response _ status Hlive Hres).
  rewrite (run_data_fits cs _ {| statusCode := status; data := []; size := 0 |});
    [reflexivity|exact Hlive|reflexivity|cbn [size]; lia].
Qed.

Lemma X9_witness :
  exchange (platform := Reference.node) test_cfg (lit "GET") (lit "/api/playbooks")
    VUndefined None
    (EvResponse 200 :: List.map EvData
       [string_chunk (lit "[1,2"); string_chunk (lit ",3,4]")])
  = with_res {| statusCode := 200; data := lit "[1,2,3,4]"; size := 9 |}
      (request (platform := Reference.node) test_cfg (lit "GET") (lit "/api/playbooks")
         VUndefined None).
Proof.
  apply (X9_stream_within_ceiling_is_accumulated (platform := Reference.node) test_cfg
           (lit "GET") (lit "/api/playbooks") VUndefined None 200
           [string_chunk (lit "[1,2"); string_chunk (lit ",3,4]")]).
  - vm_compute. reflexivity.
  - vm_compute. discriminate.
Defined.

(** X10. A response whose chunks add up to more than 5242880 bytes is always
    refused, however it is cut into chunks and whatever follows: the promise
    is rejected with "Response too large", [req.destroy()] is called once,
    and [data] holds exactly the chunks that came before the one that
    crossed the ceiling. *)
Theorem X10_stream_over_ceiling_is_refused
    {platform : Platform} (cfg : Config) (method urlPath : JSString) (body : JSValue)
    (timeout : option N) (status : N) (cs : list Chunk) (later : list NetEvent) :
  live (request cfg method urlPath body timeout) = true ->
  MAX_RESPONSE_SIZE < total_length cs ->
  exists kept c rest,
    cs = kept ++ c :: rest
    /\ total_length kept <= MAX_RESPONSE_SIZE
    /\ MAX_RESPONSE_SIZE < total_length kept + c_length c
    /\ let x := exchange cfg method urlPath body timeout
                  (EvResponse status :: List.map EvData cs ++ later) in
       promise x = Some (Rejected (lit "Response too large"))
       /\ trace x = trace (request cfg method urlPath body timeout) ++ [ReqDestroy]
       /\ option_map data (res x) = Some (chunks_text kept).
Proof.
  intros Hlive Hover.
  destruct (request_sent cfg method urlPath body timeout Hlive) as [Hres Hpending].
  set (x0 := request cfg method urlPath body timeout) in *.
  destruct (run_data_overflow later cs
              (with_res {| statusCode := status; data := []; size := 0 |} x0)
              {| statusCode := status; data := []; size := 0 |})
    as (kept & c & rest & Hcs & Hkept & Hc & Hrun);
    [exact Hlive|reflexivity|exact Hpending|apply N.le_0_l|cbn [size]; lia|].
  cbn [size data statusCode] in Hkept, Hc, Hrun. rewrite !N.add_0_l in *.
  exists kept, c, rest. repeat split; [assumption..| | |].
  all: unfold exchange;
    change (EvResponse status :: List.map EvData cs ++ later)
      with ([EvResponse status] ++ (List.map EvData cs ++ later));
    rewrite run_events_app, (run_response _ status Hlive Hres); fold x0; rewrite Hrun.
  - apply settle_pending. exact Hpending.
  - rewrite settle_trace. reflexivity.
  - rewrite settle_res. reflexivity.
Qed.

Lemma X10_witness :
  exists kept c rest,
    [string_chunk (lit "{"); string_chunk (repeat 120 (N.to_nat 6291456))] = kept ++ c :: rest
    /\ total_length kept <= MAX_RESPONSE_SIZE
    /\ MAX_RESPONSE_SIZE < total_length kept + c_length c
    /\ let x := exchange (platform := Reference.node) test_cfg (lit "GET")
                  (lit "/api/playbooks") VUndefined None
                  (EvResponse 200
                   :: List.map EvData
                        [string_chunk (lit "{"); string_chunk (repeat 120 (N.to_nat 6291456))]
                      ++ [EvEnd]) in
       promise x = Some (Rejected (lit "Response too large"))
       /\ trace x = trace (request (platform := Reference.node) test_cfg (lit "GET")
                            (lit "/api/playbooks") VUndefined None) ++ [ReqDestroy]
       /\ option_map data (res x) = Some (chunks_text kept).
Proof.
  apply (X10_stream_over_ceiling_is_refused (platform := Reference.node) test_cfg
           (lit "GET") (lit "/api/playbooks") VUndefined None 200
           [string_chunk (lit "{"); string_chunk (repeat 120 (N.to_nat 6291456))] [EvEnd]).
  - vm_compute. reflexivity.
  - cbn [total_length fold_right]. rewrite string_chunk_repeat_length. reflexivity.
Defined.

(** X11. When the response ends with a body that parses as JSON and a status
    below 400, the promise is resolved with the parsed value. *)
Theorem X11_parsed_success_body_is_payload
    {platform : Platform} (cfg : Config) (method urlPath : JSString) (body : JSValue)
    (timeout : option N) (script : list NetEvent) (r : Response) (json : JSValue) :
  live (exchange cfg method urlPath body timeout script) = true ->
  res (exchange cfg method urlPath body timeout script) = Some r ->
  JSON_parse (data r) = Some json ->
  statusCode r < 400 ->
  promise (exchange cfg method urlPath body timeout (script ++ [EvEnd]))
  = Some (Resolved json).
Proof.
  intros Hlive Hres Hparse Hstatus.
  unfold exchange. rewrite run_events_app.
  fold (exchange cfg method urlPath body timeout script).
  change (run_events [EvEnd] ?y) with (deliver y EvEnd).
  rewrite (deliver_end _ r Hlive Hres
             (exchange_pending_while_live cfg method urlPath body timeout script Hlive)).
  unfold on_end_try. rewrite Hparse.
  apply N.leb_gt in Hstatus. rewrite Hstatus. reflexivity.
Qed.

Lemma X11_witness :
  promise (exchange (platform := Reference.node) test_cfg (lit "GET") (lit "/api/playbooks")
             VUndefined None
             ([EvResponse 200; EvData (string_chunk (lit "[tr")); EvData (string_chunk (lit "ue]"))]
              ++ [EvEnd]))
  = Some (Resolved (VArray [VBool true])).
Proof.
  apply (X11_parsed_success_body_is_payload (platform := Reference.node) test_cfg
           (lit "GET") (lit "/api/playbooks") VUndefined None
           [EvResponse 200; EvData (string_chunk (lit "[tr")); EvData (string_chunk (lit "ue]"))]
           {| statusCode := 200; data := lit "[true]"; size := 6 |}).
  - vm_compute. reflexivity.
  - vm_compute. reflexivity.
  - vm_compute. reflexivity.
  - vm_compute. reflexivity.
Defined.

(** X12. When the response ends with a status of 400 or more and a body that
    parses to an object whose [error] member is a non-empty string, the
    promise is rejected with exactly that string. *)
Theorem X12_error_member_is_the_message
    {platform : Platform} (cfg : Config) (method urlPath : JSString) (body : JSValue)
    (timeout : option N) (script : list NetEvent) (r : Response)
    (props : list (JSString * JSValue)) (message : JSString) :
  live (exchange cfg method urlPath body timeout script) = true ->
  res (exchange cfg method urlPath body timeout script) = Some r ->
  JSON_parse (data r) = Some (VObject props) ->
  obj_get (lit "error") props = Some (VString message) ->
  message <> [] ->
  400 <= statusCode r ->
  promise (exchange cfg method urlPath body timeout (script ++ [EvEnd]))
  = Some (Rejected message).
Proof.
  intros Hlive Hres Hparse Hget Hne Hstatus.
  unfold exchange. rewrite run_events_app.
  fold (exchange cfg method urlPath body timeout script).
  change (run_events [EvEnd] ?y) with (deliver y EvEnd).
  rewrite (deliver_end _ r Hlive Hres
             (exchange_pending_while_live cfg method urlPath body timeout script Hlive)).
  rewrite (on_end_try_error_member r (VObject props) (VString message) message);
    try assumption; try reflexivity.
  - cbn [get_member]. rewrite Hget. reflexivity.
  - cbn [truthy]. apply nonempty_truthy. exact Hne.
Qed.

Lemma X12_witness :
  promise (exchange (platform := Reference.node) test_cfg (lit "POST") (lit "/review")
             (VObject [(lit "pr_url", VString (lit "u"))]) None
             ([EvResponse 401; EvData (string_chunk unauthorized_body)] ++ [EvEnd]))
  = Some (Rejected (lit "Unauthorized")).
Proof.
  apply (X12_error_member_is_the_message (platform := Reference.node) test_cfg
           (lit "POST") (lit "/review") (VObject [(lit "pr_url", VString (lit "u"))]) None
           [EvResponse 401; EvData (string_chunk unauthorized_body)]
           {| statusCode := 401; data := unauthorized_body; size := 24 |}
           [(lit "error", VString (lit "Unauthorized"))]).
  - vm_compute. reflexivity.
  - vm_compute. reflexivity.
  - vm_compute. reflexivity.
  - vm_compute. reflexivity.
  - discriminate.
  - vm_compute. discriminate.
Defined.

(** X13. When the response ends with a status of 400 or more and a body that
    parses to anything but [null] and has no truthy [error] member (an
    object without one or with an empty, zero, false or null one, an array,
    a string, a number, a boolean), the promise is rejected with
    "HTTP <code>". *)
Theorem X13_generic_http_error_message
    {platform : Platform} (cfg : Config) (method urlPath : JSString) (body : JSValue)
    (timeout : option N) (script : list NetEvent) (r : Response) (json e : JSValue) :
  live (exchange cfg method urlPath body timeout script) = true ->
  res (exchange cfg method urlPath body timeout script) = Some r ->
  JSON_parse (data r) = Some json ->
  get_member json (lit "error") = inr e ->
  truthy e = false ->
  400 <= statusCode r ->
  promise (exchange cfg method urlPath body timeout (script ++ [EvEnd]))
  = Some (Rejected (lit "HTTP " ++ dec (statusCode r))).
Proof.
  intros Hlive Hres Hparse Hget Hfalsy Hstatus.
  unfold exchange. rewrite run_events_app.
  fold (exchange cfg method urlPath body timeout script).
  change (run_events [EvEnd] ?y) with (deliver y EvEnd).
  rewrite (deliver_end _ r Hlive Hres
             (exchange_pending_while_live cfg method urlPath body timeout script Hlive)).
  rewrite (on_end_try_generic r json e); try assumption. reflexivity.
Qed.

Lemma X13_witness :
  promise (exchange (platform := Reference.node) test_cfg (lit "GET") (lit "/api/usage")
             VUndefined None
             ([EvResponse 403; EvData (string_chunk (lit "[]"))] ++ [EvEnd]))
  = Some (Rejected (lit "HTTP 403")).
Proof.
  apply (X13_generic_http_error_message (platform := Reference.node) test_cfg
           (lit "GET") (lit "/api/usage") VUndefined None
           [EvResponse 403; EvData (string_chunk (lit "[]"))]
           {| statusCode := 403; data := lit "[]"; size := 2 |} (VArray []) VUndefined).
  - vm_compute. reflexivity.
  - vm_compute. reflexivity.
  - vm_compute. reflexivity.
  - reflexivity.
  - reflexivity.
  - vm_compute. discriminate.
Defined.

(** X14. A response that ends without any body: the empty text does not
    parse, so below 400 the promise is resolved with the empty string, and
    from 400 on it is rejected with "HTTP <code>: " and nothing after. *)
Theorem X14_empty_body
    {platform : Platform} (cfg : Config) (method urlPath : JSString) (body : JSValue)
    (timeout : option N) (status : N) :
  live (request cfg method urlPath body timeout) = true ->
  promise (exchange cfg method urlPath body timeout [EvResponse status; EvEnd])
  = Some (if 400 <=? status
          then Rejected (lit "HTTP " ++ dec status ++ lit ": ")
          else Resolved (VString [])).
Proof.
  intros Hlive.
  pose proof (complete_response_outcome cfg method urlPath body timeout status [] Hlive)
    as H. cbn [List.map app total_length fold_right chunks_text flat_map] in H.
  rewrite H by apply N.le_0_l.
  unfold on_end_try, on_end_catch. cbn [data statusCode].
  change (JSON_parse []) with (@None JSValue). cbn [slice0 firstn].
  destruct (400 <=? status); [rewrite app_nil_r|]; reflexivity.
Qed.

Lemma X14_witness :
  promise (exchange (platform := Reference.node) test_cfg (lit "POST") (lit "/scan")
             (VObject [(lit "repos", VArray [])]) None [EvResponse 204; EvEnd])
  = Some (Resolved (VString [])).
Proof.
  apply (X14_empty_body (platform := Reference.node) test_cfg (lit "POST") (lit "/scan")
           (VObject [(lit "repos", VArray [])]) None 204).
  vm_compute. reflexivity.
Defined.

(** ** Further properties of the routes *)









Lemma split_on_app_no_sep (sep : N) (s : JSString) :
  forall cur rest, ~ In sep s ->
    split_on sep cur (s ++ rest) = split_on sep (rev s ++ cur) rest.
Proof.
  induction s as [|c s IH]; intros cur rest Hno; [reflexivity|].
  cbn [app split_on]. destruct (N.eqb_spec c sep) as [->|_].
  - exfalso. apply Hno. left. reflexivity.
  - rewrite IH by (intros Hin; apply Hno; right; exact Hin).
    cbn [rev]. rewrite <- app_assoc. reflexivity.
Qed.

(** X17. With an API key and a slug that [encodeURIComponent] accepts,
    [run_playbook] posts [{repo, inputs}] to a route whose segments are
    exactly [api], [playbooks], the encoded slug and [run]: the encoded slug
    is written with unreserved characters and percent escapes only, so it
    contains no separator of its own. *)
Theorem X17_run_playbook_route_segments
    {platform : Platform} (cfg : Config) (slug repo encoded : JSString)
    (inputs : option (list (JSString * JSString))) :
  str_truthy (API_KEY cfg) = true ->
  encodeURIComponent slug = Some encoded ->
  exists route body,
    handle cfg (run_playbook slug repo inputs)
    = Await (lit "POST") route body (on_outcome whole_json)
    /\ obj_get (lit "repo") (match body with VObject props => props | _ => [] end)
       = Some (VString repo)
    /\ Forall escaped_unit encoded
    /\ split_on 47 [] route = [[]; lit "api"; lit "playbooks"; encoded; lit "run"].
Proof.
  intros Hkey Henc.
  destruct (encodeURIComponent_no_slash_no_space slug encoded Henc) as [Hslash _].
  eexists; eexists. split; [|split; [|split]].
  - cbn [handle]. unfold handle_run_playbook. rewrite Hkey, Henc. reflexivity.
  - reflexivity.
  - exact (encodeURIComponent_escaped (List.length slug) slug encoded (Nat.le_refl _) Henc).
  - change (lit "/api/playbooks/" ++ encoded ++ lit "/run")
      with (47 :: lit "api" ++ 47 :: lit "playbooks" ++ 47 :: encoded ++ lit "/run").
    cbn [split_on N.eqb Pos.eqb rev app].
    rewrite (split_on_app_no_sep 47 (lit "api")) by (vm_compute; intuition discriminate).
    cbn [split_on N.eqb Pos.eqb].
    rewrite (split_on_app_no_sep 47 (lit "playbooks")) by (vm_compute; intuition discriminate).
    cbn [split_on N.eqb Pos.eqb].
    rewrite (split_on_app_no_sep 47 encoded) by exact Hslash.
    change (lit "/run") with (47 :: lit "run" ++ []).
    cbn [split_on N.eqb Pos.eqb].
    rewrite (split_on_app_no_sep 47 (lit "run")) by (vm_compute; intuition discriminate).
    cbn [split_on]. rewrite !app_nil_r, !rev_involutive. reflexivity.
Qed.

Lemma X17_witness :
  exists route body,
    handle (platform := Reference.node) test_cfg
      (run_playbook (lit "my playbook/v2") (lit "a/b") None)
    = Await (lit "POST") route body (on_outcome (whole_json (platform := Reference.node)))
    /\ obj_get (lit "repo") (match body with VObject props => props | _ => [] end)
       = Some (VString (lit "a/b"))
    /\ Forall escaped_unit (lit "my%20playbook%2Fv2")
    /\ split_on 47 [] route
       = [[]; lit "api"; lit "playbooks"; lit "my%20playbook%2Fv2"; lit "run"].
Proof.
  apply (X17_run_playbook_route_segments (platform := Reference.node) test_cfg
           (lit "my playbook/v2") (lit "a/b") (lit "my%20playbook%2Fv2") None).
  - reflexivity.
  - vm_compute. reflexivity.
Defined.

Lemma unescaped_not_surrogate (c : N) :
  uri_unescaped c = true -> is_low_surrogate c = false /\ is_high_surrogate c = false.
Proof.
  intros H.
  assert (Hc : c < 128).
  { unfold uri_unescaped, is_alnum, is_alpha, is_upper, is_lower, is_digit, in_range, mem in H.
    cbn [lit list_ascii_of_string List.map existsb] in H.
    repeat (apply orb_true_iff in H; destruct H as [H|H]);
      first [ apply andb_true_iff in H; destruct H as [_ H]; apply N.leb_le in H; lia
            | apply N.eqb_eq in H; subst c; reflexivity
            | discriminate H ]. }
  unfold is_low_surrogate, is_high_surrogate, in_range.
  split; apply andb_false_iff; left; apply N.leb_gt; lia.
Qed.

(** [encodeURIComponent] throws exactly on strings that are not well-formed
    UTF-16. *)
Lemma encodeURIComponent_fails_iff (s : JSString) :
  encodeURIComponent s = None <-> well_formed s = false.
Proof.
  remember (List.length s) as n eqn:Hn.
  assert (Hlen : (List.length s <= n)%nat) by lia. clear Hn.
  revert s Hlen. induction n as [|n IH]; intros s Hlen.
  - destruct s; [|cbn [List.length] in Hlen; lia]. split; discriminate.
  - destruct s as [|c rest]; [split; discriminate|].
    cbn [List.length] in Hlen. cbn [encodeURIComponent well_formed].
    destruct (uri_unescaped c) eqn:Hun.
    + destruct (unescaped_not_surrogate c Hun) as [-> ->].
      specialize (IH rest ltac:(lia)).
      destruct (encodeURIComponent rest); cbn [option_map]; split; intros H;
          first [ discriminate H | reflexivity | (apply IH; reflexivity)
                | (apply IH in H; discriminate H) ].
    + destruct (is_low_surrogate c); [split; reflexivity|].
      destruct (is_high_surrogate c).
      * destruct rest as [|d rest']; [split; reflexivity|].
        destruct (is_low_surrogate d); [|split; reflexivity].
        cbn [andb List.length] in *. specialize (IH rest' ltac:(lia)).
        destruct (encodeURIComponent rest'); cbn [option_map]; split; intros H;
          first [ discriminate H | reflexivity | (apply IH; reflexivity)
                | (apply IH in H; discriminate H) ].
      * specialize (IH rest ltac:(lia)).
        destruct (encodeURIComponent rest); cbn [option_map]; split; intros H;
          first [ discriminate H | reflexivity | (apply IH; reflexivity)
                | (apply IH in H; discriminate H) ].
Qed.

(** X18. With an API key, [run_playbook] reaches [request] exactly when the
    slug is well-formed UTF-16.  A slug with an unpaired surrogate makes
    [encodeURIComponent] throw inside the [try]: nothing is done on the HTTP
    client and the tool returns "Error: URI malformed". *)
Theorem X18_run_playbook_requests_iff_slug_well_formed
    {platform : Platform} (cfg : Config) (slug repo : JSString)
    (inputs : option (list (JSString * JSString))) (script : list NetEvent) :
  str_truthy (API_KEY cfg) = true ->
  if well_formed slug then
    exists encoded body,
      encodeURIComponent slug = Some encoded
      /\ handle cfg (run_playbook slug repo inputs)
         = Await (lit "POST") (lit "/api/playbooks/" ++ encoded ++ lit "/run") body
             (on_outcome whole_json)
  else
    invoke cfg (run_playbook slug repo inputs) script
    = ([], Some (VString (lit "Error: URI malformed"))).
Proof.
  intros Hkey. pose proof (encodeURIComponent_fails_iff slug) as Hiff.
  unfold invoke. cbn [handle]. unfold handle_run_playbook. rewrite Hkey. cbn [negb].
  destruct (well_formed slug).
  - destruct (encodeURIComponent slug) as [encoded|].
    + eexists; eexists. split; reflexivity.
    + destruct Hiff as [Hiff _]. discriminate (Hiff eq_refl).
  - destruct Hiff as [_ Hiff]. rewrite (Hiff eq_refl). reflexivity.
Qed.

Lemma X18_witness :
  invoke (platform := Reference.node) test_cfg
    (run_playbook [98; 55357; 103] (lit "a/b") None) [EvResponse 200; EvEnd]
  = ([], Some (VString (lit "Error: URI malformed"))).
Proof.
  exact (X18_run_playbook_requests_iff_slug_well_formed (platform := Reference.node) test_cfg
           [98; 55357; 103] (lit "a/b") None [EvResponse 200; EvEnd] eq_refl).
Defined.

Lemma encodeURIComponent_unreserved (s : JSString) :
  forallb uri_unescaped s = true -> encodeURIComponent s = Some s.
Proof.
  induction s as [|c s IH]; intros H; [reflexivity|].
  cbn [forallb] in H. apply andb_true_iff in H. destruct H as [Hc Hs].
  cbn [encodeURIComponent]. rewrite Hc, (IH Hs). reflexivity.
Qed.

(** X19. A slug written with unreserved characters only (letters, digits
    and [-_.!~*'()]), as the built-in slugs are, reaches the route
    unchanged: [run_playbook] posts to ["/api/playbooks/" + slug + "/run"]. *)
Theorem X19_unreserved_slug_is_sent_unchanged
    {platform : Platform} (cfg : Config) (slug repo : JSString)
    (inputs : option (list (JSString * JSString))) :
  str_truthy (API_KEY cfg) = true ->
  forallb uri_unescaped slug = true ->
  exists body,
    handle cfg (run_playbook slug repo inputs)
    = Await (lit "POST") (lit "/api/playbooks/" ++ slug ++ lit "/run") body
        (on_outcome whole_json).
Proof.
  intros Hkey Hslug. cbn [handle]. unfold handle_run_playbook.
  rewrite Hkey, (encodeURIComponent_unreserved slug Hslug). eexists. reflexivity.
Qed.

Lemma X19_witness :
  exists body,
    handle (platform := Reference.node) test_cfg
      (run_playbook (lit "security-remediation") (lit "a/b") None)
    = Await (lit "POST") (lit "/api/playbooks/" ++ lit "security-remediation" ++ lit "/run")
        body (on_outcome (whole_json (platform := Reference.node))).
Proof.
  apply (X19_unreserved_slug_is_sent_unchanged (platform := Reference.node) test_cfg
           (lit "security-remediation") (lit "a/b") None).
  - reflexivity.
  - vm_compute. reflexivity.
Defined.

(** X20. With an API key and a base URL whose scheme is not HTTPS, no tool
    reaches the network: every handler that calls [request] gets the
    refusal, nothing is done on the HTTP client, and the text returned is
    "Error: Refusing to send API key over insecure HTTP. Use HTTPS.". *)
Theorem X20_insecure_base_url_blocks_every_tool
    {platform : Platform} (cfg : Config) (call : ToolCall) (script : list NetEvent)
    (method urlPath : JSString) (body : JSValue) (k : Outcome -> JSValue) (parsed : URL) :
  handle cfg call = Await method urlPath body k ->
  URL_parse (BASE_URL cfg ++ urlPath) = Some parsed ->
  protocol parsed <> lit "https:" ->
  invoke cfg call script
  = ([], Some (VString
                 (lit "Error: Refusing to send API key over insecure HTTP. Use HTTPS."))).
Proof.
  intros H Hurl Hscheme.
  destruct (handle_await cfg call method urlPath body k H) as (Hkey & (format & ->) & _ & _).
  unfold invoke. rewrite H. unfold exchange, request. rewrite Hurl, Hkey.
  destruct (str_eqb (protocol parsed) (lit "https:")) eqn:E;
    [apply str_eqb_eq in E; contradiction|].
  cbn [negb andb]. rewrite run_events_closed by reflexivity. reflexivity.
Qed.

Lemma X20_witness :
  invoke (platform := Reference.node) insecure_cfg (list_playbooks) [EvResponse 200; EvEnd]
  = ([], Some (VString
                 (lit "Error: Refusing to send API key over insecure HTTP. Use HTTPS."))).
Proof.
  apply (X20_insecure_base_url_blocks_every_tool (platform := Reference.node) insecure_cfg
           list_playbooks _ (lit "GET") (lit "/api/playbooks") VUndefined
           (on_outcome (whole_json (platform := Reference.node)))
           {| protocol := lit "http:"; hostname := lit "example.com"; port := [];
              pathname := lit "/api/playbooks"; search := [] |}).
  - reflexivity.
  - vm_compute. reflexivity.
  - vm_compute. discriminate.
Defined.

(** ** Further properties of the configuration *)

Lemma strip_trailing_slash_removes (s : JSString) : strip_trailing_slash (s ++ [47]) = s.
Proof.
  unfold strip_trailing_slash. rewrite rev_app_distr. cbn [rev app]. apply rev_involutive.
Qed.

Lemma strip_trailing_slash_keeps (s : JSString) :
  last s 0 <> 47 -> strip_trailing_slash s = s.
Proof.
  intros Hlast. unfold strip_trailing_slash.
  destruct (rev s) as [|c l] eqn:Hrev; [reflexivity|].
  assert (Hs : s = rev l ++ [c]).
  { rewrite <- (rev_involutive s), Hrev. reflexivity. }
  rewrite Hs, last_last in Hlast.
  destruct c as [|p]; [reflexivity|].
  do 5 (destruct p as [p|p|]; try reflexivity).
  destruct p; try reflexivity. contradiction.
Qed.

(** X21. The base URL read from the environment loses one trailing slash
    and nothing else: a URL that does not end in a slash is kept as it is,
    the same URL followed by one slash gives the same base URL, and of two
    trailing slashes one remains. *)
Theorem X21_base_url_loses_one_trailing_slash
    (key : option JSString) (url ver : JSString) :
  url <> [] ->
  last url 0 <> 47 ->
  BASE_URL (cfg_with_url key url ver) = url
  /\ BASE_URL (cfg_with_url key (url ++ [47]) ver) = url
  /\ BASE_URL (cfg_with_url key (url ++ [47; 47]) ver) = url ++ [47].
Proof.
  intros Hne Hlast. unfold cfg_with_url, load_config. cbn [BASE_URL CLOUD_AGENT_URL].
  repeat split.
  - rewrite env_or_set by exact Hne. apply strip_trailing_slash_keeps. exact Hlast.
  - rewrite env_or_set by (destruct url; discriminate). apply strip_trailing_slash_removes.
  - rewrite env_or_set by (destruct url; discriminate).
    change (url ++ [47; 47]) with (url ++ [47] ++ [47]). rewrite app_assoc.
    apply strip_trailing_slash_removes.
Qed.

Lemma X21_witness :
  BASE_URL (cfg_with_url None (lit "https://custom.example.com") (lit "1.0.0"))
  = lit "https://custom.example.com"
  /\ BASE_URL (cfg_with_url None (lit "https://custom.example.com" ++ [47]) (lit "1.0.0"))
     = lit "https://custom.example.com"
  /\ BASE_URL (cfg_with_url None (lit "https://custom.example.com" ++ [47; 47]) (lit "1.0.0"))
     = lit "https://custom.example.com" ++ [47].
Proof.
  apply (X21_base_url_loses_one_trailing_slash None (lit "https://custom.example.com")
           (lit "1.0.0")).
  - discriminate.
  - vm_compute. discriminate.
Defined.

(** ** Further properties of the result formatting *)

(** X22. [review_pr] and [ask_codebase] on a payload that is an object:
    the text returned is the [review] (respectively [answer]) member when
    there is a truthy one, and otherwise the whole payload as indented
    JSON. *)
Theorem X22_named_field_or_whole_payload
    {platform : Platform} (cfg : Config) (call : ToolCall) (name : JSString)
    (script : list NetEvent) (method urlPath : JSString) (body : JSValue)
    (k : Outcome -> JSValue) (props : list (JSString * JSValue)) :
  (exists pr_url post_comments, call = review_pr pr_url post_comments /\ name = lit "review")
  \/ (exists question repo, call = ask_codebase question repo /\ name = lit "answer") ->
  handle cfg call = Await method urlPath body k ->
  promise (exchange cfg method urlPath body None script) = Some (Resolved (VObject props)) ->
  snd (invoke cfg call script)
  = Some (if truthy (member name props) then member name props
          else VString (JSON_stringify_indent2 (VObject props))).
Proof.
  intros Hcall H Hres. unfold invoke. rewrite H. cbn [snd]. rewrite Hres. cbn [option_map].
  f_equal.
  destruct Hcall as [(u & pc & -> & ->)|(q & r & -> & ->)];
    cbn [handle] in H; unfold handle_review_pr, handle_ask_codebase in H;
    destruct (str_truthy (API_KEY cfg)); cbn [negb] in H; try discriminate H;
    injection H as _ _ _ <-; reflexivity.
Qed.

Lemma X22_witness :
  snd (invoke (platform := Reference.node) test_cfg
         (review_pr (lit "https://github.com/a/b/pull/1") None)
         [EvResponse 200; EvData (string_chunk review_body); EvEnd])
  = Some (VString (lit "LGTM")).
Proof.
  apply (X22_named_field_or_whole_payload (platform := Reference.node) test_cfg
           (review_pr (lit "https://github.com/a/b/pull/1") None) (lit "review")
           [EvResponse 200; EvData (string_chunk review_body); EvEnd]
           (lit "POST") (lit "/review")
           (VObject [(lit "pr_url", VString (lit "https://github.com/a/b/pull/1"));
                     (lit "post_review", VBool false)])
           (on_outcome (field_or_json (platform := Reference.node) (lit "review")))
           [(lit "review", VString (lit "LGTM")); (lit "posted", VBool false)]).
  - left. eexists; eexists. split; reflexivity.
  - reflexivity.
  - vm_compute. reflexivity.
Defined.

(** X24. [list_sessions] on a payload that is an object returns, as indented
    JSON, its [sessions] member when there is a truthy one and the whole
    payload otherwise. *)
Theorem X24_sessions_member_or_whole_payload
    {platform : Platform} (cfg : Config) (limit : option N) (status : option SessionStatus)
    (script : list NetEvent) (method urlPath : JSString) (body : JSValue)
    (k : Outcome -> JSValue) (props : list (JSString * JSValue)) :
  handle cfg (list_sessions limit status) = Await method urlPath body k ->
  promise (exchange cfg method urlPath body None script) = Some (Resolved (VObject props)) ->
  snd (invoke cfg (list_sessions limit status) script)
  = Some (VString (JSON_stringify_indent2
            (if truthy (member (lit "sessions") props)
             then member (lit "sessions") props else VObject props))).
Proof.
  intros H Hres. unfold invoke. rewrite H. cbn [snd]. rewrite Hres. cbn [option_map].
  f_equal. cbn [handle] in H. unfold handle_list_sessions in H.
  destruct (str_truthy (API_KEY cfg)); cbn [negb] in H; [|discriminate H].
  injection H as _ _ _ <-. reflexivity.
Qed.

Lemma X24_witness :
  snd (invoke (platform := Reference.node) test_cfg (list_sessions None None)
         [EvResponse 200; EvData (string_chunk sessions_body); EvEnd])
  = Some (VString (JSON_stringify_indent2 (Platform := Reference.node) (VArray []))).
Proof.
  apply (X24_sessions_member_or_whole_payload (platform := Reference.node) test_cfg
           None None [EvResponse 200; EvData (string_chunk sessions_body); EvEnd]
           (lit "GET") (lit "/api/sessions?limit=20") VUndefined
           (on_outcome (sessions_json (platform := Reference.node)))
           [(lit "sessions", VArray []); (lit "total", VNumber (num_of_N 0))]).
  - reflexivity.
  - vm_compute. reflexivity.
Defined.

(** ** The running total of a response *)

(** C3. The ceiling is 5242880 bytes and is checked against the running
    total as each chunk arrives.  After the chunks [cs] of a response, which
    together fit under the ceiling, [size] is their total and [data] their
    text; when the next chunk [c] takes that total above the ceiling,
    [req.destroy()] is called at once, the promise is rejected with
    "Response too large", [c] is not appended, so [data] still holds only
    the chunks before it, and whatever arrives later, however large,
    changes nothing. *)
Theorem C3_size_ceiling_enforced_per_chunk
    {platform : Platform} (cfg : Config) (method urlPath : JSString) (body : JSValue)
    (timeout : option N) (pre : list NetEvent) (status : N) (cs : list Chunk) (c : Chunk)
    (later : list NetEvent) :
  live (exchange cfg method urlPath body timeout pre) = true ->
  res (exchange cfg method urlPath body timeout pre) = None ->
  total_length cs <= MAX_RESPONSE_SIZE ->
  MAX_RESPONSE_SIZE < total_length cs + c_length c ->
  let x := exchange cfg method urlPath body timeout
             (pre ++ EvResponse status :: List.map EvData cs) in
  let x' := exchange cfg method urlPath body timeout
              (pre ++ EvResponse status :: List.map EvData (cs ++ [c])) in
  MAX_RESPONSE_SIZE = 5242880
  /\ res x = Some {| statusCode := status; data := chunks_text cs; size := total_length cs |}
  /\ promise x = None
  /\ trace x = trace (exchange cfg method urlPath body timeout pre)
  /\ trace x' = trace x ++ [ReqDestroy]
  /\ promise x' = Some (Rejected (lit "Response too large"))
  /\ res x' = Some {| statusCode := status; data := chunks_text cs;
                      size := total_length cs + c_length c |}
  /\ exchange cfg method urlPath body timeout
       (pre ++ EvResponse status :: List.map EvData (cs ++ [c]) ++ later) = x'.
Proof.
  intros Hlive Hres Hfits Hover x x'.
  pose proof (exchange_pending_while_live cfg method urlPath body timeout pre Hlive)
    as Hpending.
  set (x0 := exchange cfg method urlPath body timeout pre) in *.
  assert (Hx : x = with_res {| statusCode := status; data := chunks_text cs;
                               size := total_length cs |} x0).
  { subst x. unfold exchange.
    change (pre ++ EvResponse status :: List.map EvData cs)
      with (pre ++ [EvResponse status] ++ List.map EvData cs).
    rewrite !run_events_app. fold (exchange cfg method urlPath body timeout pre). fold x0.
    rewrite (run_response x0 status Hlive Hres).
    rewrite (run_data_fits cs _ {| statusCode := status; data := []; size := 0 |});
      [reflexivity|exact Hlive|reflexivity|cbn [size]; lia]. }
  assert (Hx' : x' = settle (Rejected (lit "Response too large"))
                       (req_destroy
                          (with_res {| statusCode := status; data := chunks_text cs;
                                       size := total_length cs + c_length c |} x))).
  { subst x'. unfold exchange. rewrite map_app.
    change (pre ++ EvResponse status :: List.map EvData cs ++ List.map EvData [c])
      with (pre ++ (EvResponse status :: List.map EvData cs) ++ [EvData c]).
    rewrite app_assoc, run_events_app.
    fold (exchange cfg method urlPath body timeout
            (pre ++ EvResponse status :: List.map EvData cs)). fold x.
    change (run_events [EvData c] x) with (deliver x (EvData c)).
    unfold deliver. rewrite Hx. cbn [live with_res]. rewrite Hlive.
    unfold on_data. cbn [res with_res size statusCode data].
    apply N.ltb_lt in Hover. rewrite Hover. reflexivity. }
  split; [reflexivity|].
  split; [rewrite Hx; reflexivity|].
  split; [rewrite Hx; exact Hpending|].
  split; [rewrite Hx; reflexivity|].
  split; [rewrite Hx', settle_trace; reflexivity|].
  split; [rewrite Hx'; apply settle_pending; rewrite Hx; exact Hpending|].
  split; [rewrite Hx', settle_res; reflexivity|].
  unfold exchange.
  change (pre ++ EvResponse status :: List.map EvData (cs ++ [c]) ++ later)
    with (pre ++ (EvResponse status :: List.map EvData (cs ++ [c])) ++ later).
  rewrite app_assoc, run_events_app.
  fold (exchange cfg method urlPath body timeout
          (pre ++ EvResponse status :: List.map EvData (cs ++ [c]))). fold x'.
  apply run_events_closed. rewrite Hx', settle_live. reflexivity.
Qed.

Lemma C3_witness :
  let mib := string_chunk (repeat 120 (N.to_nat 1048576)) in
  let cs := [mib; mib; mib; mib; mib] in
  let x := exchange (platform := Reference.node) test_cfg (lit "GET") (lit "/api/playbooks")
             VUndefined None ([] ++ EvResponse 200 :: List.map EvData cs) in
  let x' := exchange (platform := Reference.node) test_cfg (lit "GET") (lit "/api/playbooks")
              VUndefined None ([] ++ EvResponse 200 :: List.map EvData (cs ++ [mib])) in
  MAX_RESPONSE_SIZE = 5242880
  /\ res x = Some {| statusCode := 200; data := chunks_text cs; size := total_length cs |}
  /\ promise x = None
  /\ trace x = trace (exchange (platform := Reference.node) test_cfg (lit "GET")
                        (lit "/api/playbooks") VUndefined None [])
  /\ trace x' = trace x ++ [ReqDestroy]
  /\ promise x' = Some (Rejected (lit "Response too large"))
  /\ res x' = Some {| statusCode := 200; data := chunks_text cs;
                      size := total_length cs + c_length mib |}
  /\ exchange (platform := Reference.node) test_cfg (lit "GET") (lit "/api/playbooks")
       VUndefined None
       ([] ++ EvResponse 200 :: List.map EvData (cs ++ [mib]) ++ [EvData mib; EvEnd]) = x'.
Proof.
  intros mib cs.
  apply (C3_size_ceiling_enforced_per_chunk (platform := Reference.node) test_cfg
           (lit "GET") (lit "/api/playbooks") VUndefined None [] 200 cs mib
           [EvData mib; EvEnd]).
  - vm_compute. reflexivity.
  - vm_compute. reflexivity.
  - subst cs mib. cbn [total_length fold_right].
    rewrite !string_chunk_repeat_length. vm_compute. discriminate.
  - subst cs mib. cbn [total_length fold_right].
    rewrite !string_chunk_repeat_length. vm_compute. reflexivity.
Defined.

(** ** A credential of white space *)

(** C9, as stated, fails for the credential that is a single line feed: it
    is white space and not empty, [run_task] does call [request], but
    [https.request] refuses the header value, so the promise is rejected by
    that exception, nothing is written or sent, and the tool returns the
    client's error. *)
Lemma C9_counterexample :
  let key := [10] in
  let cfg := load_config {| CLOUD_AGENT_API_KEY := Some key; CLOUD_AGENT_URL := None |}
               (lit "1.0.0") in
  let body := VObject [(lit "prompt", VString (lit "x"))] in
  let message := lit "Invalid character in header content [" ++ [34]
                 ++ lit "Authorization" ++ [34] ++ lit "]" in
  key <> [] /\ forallb is_whitespace key = true
  /\ handle (platform := Reference.node) cfg (run_task (lit "x"))
     = Await (lit "POST") (lit "/query") body
         (on_outcome (task_summary (platform := Reference.node)))
  /\ (exists opts,
         request (platform := Reference.node) cfg (lit "POST") (lit "/query") body None
         = rejected_exchange [HttpRequest true opts] message)
  /\ snd (invoke (platform := Reference.node) cfg (run_task (lit "x"))
            [EvResponse 200; EvData (string_chunk (lit "{}")); EvEnd])
     = Some (VString (lit "Error: " ++ message)).
Proof.
  split; [discriminate|]. split; [reflexivity|]. split; [reflexivity|].
  split; [eexists; vm_compute; reflexivity|]. vm_compute. reflexivity.
Qed.

(** C9 (amended). An API key that is not empty and consists of white space
    only counts as configured.  It is the [API_KEY] read from the
    environment; no handler returns [noKeyError]; every handler calls
    [request], except [generate_tests] without a target and [run_playbook]
    with a malformed slug, which fail on their own checks; and over HTTPS
    [request] puts the key unchanged after "Bearer " in the [Authorization]
    header of the options it hands to [https.request].  When the client
    accepts those options the request is written and ended with that
    header; when it throws on them the promise is rejected with the
    client's message. *)
Theorem C9_whitespace_key_is_configured
    {platform : Platform} (key ver : JSString) (url : option JSString) :
  key <> [] ->
  forallb is_whitespace key = true ->
  let cfg := load_config {| CLOUD_AGENT_API_KEY := Some key; CLOUD_AGENT_URL := url |} ver in
  API_KEY cfg = key
  /\ (forall call, handle cfg call <> Return noKeyError)
  /\ (forall call,
         (exists method urlPath body k, handle cfg call = Await method urlPath body k)
         \/ (exists repo file feature,
                call = generate_tests repo file feature
                /\ given file || given feature = false
                /\ handle cfg call = Return provide_target_error)
         \/ (exists slug repo inputs,
                call = run_playbook slug repo inputs
                /\ well_formed slug = false
                /\ handle cfg call = Return (error_text (lit "URI malformed"))))
  /\ (forall call method urlPath body k parsed,
         handle cfg call = Await method urlPath body k ->
         URL_parse (BASE_URL cfg ++ urlPath) = Some parsed ->
         protocol parsed = lit "https:" ->
         exists opts,
           In (lit "Authorization", lit "Bearer " ++ key) (o_headers opts)
           /\ match http_request_throws opts with
              | None =>
                  request cfg method urlPath body None
                  = {| trace := HttpRequest true opts
                                :: (if truthy body then [ReqWrite (JSON_stringify body)]
                                    else [])
                                ++ [ReqEnd];
                       promise := None; res := None; live := true |}
              | Some m =>
                  request cfg method urlPath body None
                  = rejected_exchange [HttpRequest true opts] m
              end).
Proof.
  intros Hne Hws cfg.
  assert (Hkey : API_KEY cfg = key) by (apply env_or_set; exact Hne).
  assert (Htruthy : str_truthy (API_KEY cfg) = true)
    by (rewrite Hkey; apply nonempty_truthy; exact Hne).
  split; [exact Hkey|].
  split; [intros call; apply handle_not_noKeyError; exact Htruthy|].
  split.
  - intros call.
    destruct call; cbn [handle];
      unfold handle_run_task, handle_review_pr, handle_ask_codebase,
        handle_generate_tests, handle_security_scan, handle_list_sessions,
        handle_list_playbooks, handle_run_playbook, handle_get_usage;
      rewrite Htruthy; cbn [negb];
      try (left; eexists; eexists; eexists; eexists; reflexivity).
    + rewrite target_truthy. destruct (given file || given feature) eqn:Hgiven.
      * left. eexists; eexists; eexists; eexists. reflexivity.
      * right. left. exists repo, file, feature. repeat split. exact Hgiven.
    + pose proof (encodeURIComponent_fails_iff slug) as [Hiff _].
      destruct (encodeURIComponent slug) as [encoded|].
      * left. eexists; eexists; eexists; eexists. reflexivity.
      * right. right. exists slug, repo, inputs. repeat split. apply Hiff. reflexivity.
  - intros call method urlPath body k parsed _ Hurl Hscheme.
    unfold request. rewrite Hurl, Hscheme, str_eqb_refl, Htruthy. cbn [negb andb].
    match goal with
    | |- context [http_request_throws {| o_hostname := ?h; o_port := ?p; o_path := ?t;
                                         o_method := ?m; o_headers := ?hs;
                                         o_timeout := ?to |}] =>
        exists {| o_hostname := h; o_port := p; o_path := t; o_method := m;
                  o_headers := hs; o_timeout := to |}
    end.
    split.
    + cbn [o_headers]. rewrite Hkey. apply authorization_header, nonempty_truthy. exact Hne.
    + match goal with |- context [http_request_throws ?o] =>
        destruct (http_request_throws o) end; reflexivity.
Qed.

Lemma C9_witness :
  let key := [32; 9; 32] in
  let cfg := load_config {| CLOUD_AGENT_API_KEY := Some key; CLOUD_AGENT_URL := None |}
               (lit "1.0.0") in
  let body := VObject [(lit "prompt", VString (lit "x"))] in
  API_KEY cfg = key
  /\ handle (platform := Reference.node) cfg (run_task (lit "x")) <> Return noKeyError
  /\ exists opts,
       In (lit "Authorization", lit "Bearer " ++ key) (o_headers opts)
       /\ request (platform := Reference.node) cfg (lit "POST") (lit "/query") body None
          = {| trace := [HttpRequest true opts;
                         ReqWrite (JSON_stringify (Platform := Reference.node) body);
                         ReqEnd];
               promise := None; res := None; live := true |}.
Proof.
  intros key cfg body.
  destruct (C9_whitespace_key_is_configured (platform := Reference.node) key (lit "1.0.0") None
              ltac:(discriminate) ltac:(reflexivity))
    as (Hkey & Hgate & _ & Hsend).
  split; [exact Hkey|]. split; [apply Hgate|].
  destruct (Hsend (run_task (lit "x")) (lit "POST") (lit "/query") body
              (on_outcome (task_summary (platform := Reference.node)))
              {| protocol := lit "https:"; hostname := lit "cloudagent.metaltorque.dev";
                 port := []; pathname := lit "/query"; search := [] |}
              eq_refl ltac:(vm_compute; reflexivity) eq_refl)
    as (opts & Hauth & Hreq).
  exists opts. split; [exact Hauth|].
  destruct (http_request_throws opts) eqn:Hthrows.
  - exfalso. apply (f_equal promise) in Hreq. vm_compute in Hreq. discriminate Hreq.
  - exact Hreq.
Defined.

(** ** The task summary *)

(** X23. [run_task] and [generate_tests] on a payload that is an object
    return [JSON.stringify(summary, null, 2)] of a summary built from the
    payload's [response], [cost_usd], [duration_ms] and [pr_url] only, the
    last replaced by [null] when it is not truthy.  Two payloads that agree
    on these four members give the same text: no other member of the
    payload is passed on.  A member the payload lacks is [undefined] in
    the summary, and [JSON.stringify] leaves such a member out of the text. *)
Theorem X23_task_summary_reads_only_four_members
    {platform : Platform} (cfg : Config) (call : ToolCall)
    (script script' : list NetEvent) (method urlPath : JSString) (body : JSValue)
    (k : Outcome -> JSValue) (props props' : list (JSString * JSValue)) :
  (exists prompt, call = run_task prompt)
  \/ (exists repo file feature, call = generate_tests repo file feature) ->
  handle cfg call = Await method urlPath body k ->
  promise (exchange cfg method urlPath body None script) = Some (Resolved (VObject props)) ->
  promise (exchange cfg method urlPath body None script') = Some (Resolved (VObject props')) ->
  (forall name, In name summary_members -> member name props = member name props') ->
  snd (invoke cfg call script)
  = Some (VString (JSON_stringify_indent2
            (VObject [(lit "response", member (lit "response") props);
                      (lit "cost_usd", member (lit "cost_usd") props);
                      (lit "duration_ms", member (lit "duration_ms") props);
                      (lit "pr_url",
                       if truthy (member (lit "pr_url") props)
                       then member (lit "pr_url") props else VNull)])))
  /\ snd (invoke cfg call script') = snd (invoke cfg call script).
Proof.
  intros Hcall H Hres Hres' Hsame.
  assert (Hk : forall ps, k (Resolved (VObject ps))
                = VString (JSON_stringify_indent2
                    (VObject [(lit "response", member (lit "response") ps);
                              (lit "cost_usd", member (lit "cost_usd") ps);
                              (lit "duration_ms", member (lit "duration_ms") ps);
                              (lit "pr_url",
                               if truthy (member (lit "pr_url") ps)
                               then member (lit "pr_url") ps else VNull)]))).
  { destruct Hcall as [(p & ->)|(r & f & g & ->)];
      cbn [handle] in H; unfold handle_run_task, handle_generate_tests in H;
      destruct (str_truthy (API_KEY cfg)); cbn [negb] in H; try discriminate H.
    - injection H as _ _ _ <-. reflexivity.
    - destruct (negb (truthy (js_or (optional f) (optional g)))); [discriminate H|].
      injection H as _ _ _ <-. reflexivity. }
  unfold invoke. rewrite H. cbn [snd]. rewrite Hres, Hres'. cbn [option_map].
  rewrite !Hk. split; [reflexivity|].
  rewrite <- (Hsame (lit "response")), <- (Hsame (lit "cost_usd")),
    <- (Hsame (lit "duration_ms")), <- (Hsame (lit "pr_url"));
    [reflexivity|unfold summary_members; cbn [In]; auto..].
Qed.

Lemma X23_witness :
  (snd (invoke (platform := Reference.node) test_cfg (run_task (lit "x"))
         [EvResponse 200; EvData (string_chunk task_body); EvEnd])
  = Some (VString (JSON_stringify_indent2 (Platform := Reference.node)
            (VObject [(lit "response", VString (lit "Done"));
                      (lit "cost_usd", VNumber (num_of_N 1));
                      (lit "duration_ms", VUndefined);
                      (lit "pr_url", VNull)])))
  /\ snd (invoke (platform := Reference.node) test_cfg (run_task (lit "x"))
            [EvResponse 200; EvData (string_chunk task_body_plain); EvEnd])
     = snd (invoke (platform := Reference.node) test_cfg (run_task (lit "x"))
              [EvResponse 200; EvData (string_chunk task_body); EvEnd]))
  /\ snd (invoke (platform := Reference.node) test_cfg (run_task (lit "x"))
            [EvResponse 200; EvData (string_chunk task_body); EvEnd])
     = Some (VString
         (lit "{" ++ [10] ++ lit "  " ++ [34] ++ lit "response" ++ [34] ++ lit ": "
          ++ [34] ++ lit "Done" ++ [34] ++ lit "," ++ [10]
          ++ lit "  " ++ [34] ++ lit "cost_usd" ++ [34] ++ lit ": 1," ++ [10]
          ++ lit "  " ++ [34] ++ lit "pr_url" ++ [34] ++ lit ": null" ++ [10] ++ lit "}")).
Proof.
  split; [|vm_compute; reflexivity].
  apply (X23_task_summary_reads_only_four_members (platform := Reference.node) test_cfg
           (run_task (lit "x"))
           [EvResponse 200; EvData (string_chunk task_body); EvEnd]
           [EvResponse 200; EvData (string_chunk task_body_plain); EvEnd]
           (lit "POST") (lit "/query") (VObject [(lit "prompt", VString (lit "x"))])
           (on_outcome (task_summary (platform := Reference.node)))
           [(lit "response", VString (lit "Done")); (lit "cost_usd", VNumber (num_of_N 1));
            (lit "secret", VString (lit "s"))]
           [(lit "response", VString (lit "Done")); (lit "cost_usd", VNumber (num_of_N 1))]).
  - left. eexists. reflexivity.
  - reflexivity.
  - vm_compute. reflexivity.
  - vm_compute. reflexivity.
  - intros name Hin. unfold summary_members in Hin. cbn [In] in Hin.
    destruct Hin as [<-|[<-|[<-|[<-|[]]]]]; reflexivity.
Defined.
